(** * Flitsmeister client: models and session lifecycle

    A shallow embedding of [flitsmeister/models.py] and
    [flitsmeister/flitsmeister.py].

    Python values that travel through the decoders are JSON-shaped; the
    objects the client mutates ([FM], the aiohttp sessions it talks to) live
    in an explicit state that every operation threads through.  Exceptions
    are results: an operation that raises keeps every mutation it made before
    the [raise]. *)

From stdpp Require Import base option list strings gmap fin_maps.
From Stdlib Require Import ZArith.

Open Scope string_scope.
Open Scope list_scope.

(** ** Python values and exceptions *)

(** The JSON-shaped values handled by the decoders: [None], [bool], [int],
    [str], [list] and [dict] with string keys.  (JSON numbers with a fraction
    are not read by any field of the models and are left out.) *)
#[warnings="-register-all"]
Inductive value : Type :=
| VNone
| VBool (b : bool)
| VInt (n : Z)
| VStr (s : string)
| VList (l : list value)
| VDict (d : gmap string value).

(** The exception classes that occur in the two modules. *)
Inductive exn : Type :=
| NotauthenticatedException      (* flitsmeister.NotauthenticatedException *)
| AttributeError                 (* attribute lookup on an object lacking it *)
| ExpiredSignatureError          (* jwt.ExpiredSignatureError *)
| OtherError (name : string).    (* any other class, by name *)

#[global] Instance exn_eq_dec : EqDecision exn.
Proof. solve_decision. Defined.

(** The outcome of evaluating a Python expression. *)
Inductive outcome (A : Type) : Type :=
| Ok (a : A)
| Raise (e : exn).
Arguments Ok {A} a.
Arguments Raise {A} e.

#[global] Instance outcome_ret : MRet outcome := λ A a, Ok a.

#[global] Instance outcome_fmap : FMap outcome :=
  λ A B f o,
    match o with
    | Ok a => Ok (f a)
    | Raise e => Raise e
    end.

#[global] Instance outcome_bind : MBind outcome :=
  λ A B k o,
    match o with
    | Ok a => k a
    | Raise e => Raise e
    end.

(** [d.get(k)] on a [dict]: the stored value, [None] for an absent key. *)
Definition dict_get (d : gmap string value) (k : string) : value :=
  default VNone (d !! k).

(** [v.get(k)] on an arbitrary value: only a [dict] has the method. *)
Definition py_get (v : value) (k : string) : outcome value :=
  match v with
  | VDict d => Ok (dict_get d k)
  | _ => Raise AttributeError
  end.

(** ** models.py *)

(** A [datetime] as built by [datetime.fromtimestamp] and [datetime.now]:
    a naive local wall-clock reading, counted in microseconds; [>] on two of
    them compares the readings. *)
Definition datetime : Type := Z.

Definition datetime_gt (a b : datetime) : bool := (b <? a)%Z.

(** [class Auth].  The two derived attributes may never be assigned by
    [__init__]; [None] here means the attribute does not exist on the
    object (reading it raises [AttributeError]), which is not the Python
    value [None]. *)
Record Auth : Type := mkAuth {
  object_id : option value;
  session_token : value;
  access_token : value;
  access_token_expires : option datetime;
}.

Definition set_object_id (v : value) (a : Auth) : Auth :=
  mkAuth (Some v) (session_token a) (access_token a) (access_token_expires a).

Definition set_access_token_expires (t : datetime) (a : Auth) : Auth :=
  mkAuth (object_id a) (session_token a) (access_token a) (Some t).

(** [class User]. *)
Record User : Type := mkUser {
  fourfouroneone_ev_enabled : value;
  fourfouroneone_parking_enabled : value;
  fourfouroneone_payment_method_set : value;
  user_access_token : value;
  first_name : value;
  gender : value;
  has_4411_account : value;
  user_object_id : value;
  parking_enabled : value;
  user_session_token : value;
  statistics_top_speed : value;
  statistics_top_sprint : value;
  statistics_travel_distance : value;
  statistics_travel_time : value;
  username : value;
  vehicle_type : value;
}.

(** [class Statistics]. *)
Record Statistics : Type := mkStatistics {
  ambassador : value;
  countries_visited : value;
  fines_avoided : value;
  km_driven : value;
  navigation_finished : value;
  parked_once : value;
  provinces_visited : value;
  recruiter : value;
  sec_driven : value;
  times_in_traffic : value;
  top_100_sprint_ms : value;
  top_consecutive_days : value;
  top_speed : value;
  total_ratings : value;
}.

(** [User.from_dict]: keyword arguments are evaluated in source order. *)
Definition User_from_dict (data : value) : outcome User :=
  a1 ← py_get data "4411EvEnabled";
  a2 ← py_get data "4411ParkingEnabled";
  a3 ← py_get data "4411PaymentMethodSet";
  a4 ← py_get data "accessToken";
  a5 ← py_get data "firstName";
  a6 ← py_get data "gender";
  a7 ← py_get data "has4411Account";
  a8 ← py_get data "objectId";
  a9 ← py_get data "parkingEnabled";
  a10 ← py_get data "sessionToken";
  s1 ← py_get data "statistics";
  a11 ← py_get s1 "topSpeed";
  s2 ← py_get data "statistics";
  a12 ← py_get s2 "topSprint";
  s3 ← py_get data "statistics";
  a13 ← py_get s3 "travelDistance";
  s4 ← py_get data "statistics";
  a14 ← py_get s4 "travelTime";
  a15 ← py_get data "username";
  a16 ← py_get data "vehicleType";
  Ok (mkUser a1 a2 a3 a4 a5 a6 a7 a8 a9 a10 a11 a12 a13 a14 a15 a16).

(** [Statistics.from_dict]: [data] is rebound to [data.get("result")]
    before the fields are read. *)
Definition Statistics_from_dict (data : value) : outcome Statistics :=
  data ← py_get data "result";
  a1 ← py_get data "ambassador";
  a2 ← py_get data "countries_visited";
  a3 ← py_get data "fines_avoided";
  a4 ← py_get data "km_driven";
  a5 ← py_get data "navigation_finished";
  a6 ← py_get data "parked_once";
  a7 ← py_get data "provinces_visited";
  a8 ← py_get data "recruiter";
  a9 ← py_get data "sec_driven";
  a10 ← py_get data "times_in_traffic";
  a11 ← py_get data "top_100_sprint_ms";
  a12 ← py_get data "top_consecutive_days";
  a13 ← py_get data "top_speed";
  a14 ← py_get data "total_ratings";
  Ok (mkStatistics a1 a2 a3 a4 a5 a6 a7 a8 a9 a10 a11 a12 a13 a14).

(** [Auth.is_access_token_expired]: [datetime.now() > self.access_token_expires],
    with the clock reading [now] that [datetime.now()] returns. *)
Definition is_access_token_expired (now : datetime) (self : Auth) : outcome bool :=
  match access_token_expires self with
  | Some expires => Ok (datetime_gt now expires)
  | None => Raise AttributeError
  end.

(** ** The objects of flitsmeister.py *)

(** aiohttp sessions are heap objects, named by their index in the heap. *)
Definition session_id : Type := nat.

(** What [ClientSession.request] is called with, the enclosing
    [async_timeout.timeout] included. *)
Record Request : Type := mkRequest {
  rq_session : session_id;
  rq_method : string;
  rq_url : string;
  rq_json : value;
  rq_headers : gmap string value;
  rq_timeout : Z;
}.

(** What [_request] reads from the response object: [resp.status],
    [await resp.text("utf-8")], [resp.headers.get("Content-Type")],
    [await resp.json()] and [await resp.text()]. *)
Record Response : Type := mkResponse {
  resp_status : Z;
  resp_text_utf8 : outcome string;
  resp_content_type : option string;
  resp_json : outcome value;
  resp_text : outcome string;
}.

(** Everything outside the client: the heap of sessions (each with its
    [closed] flag) and the calls made to [ClientSession.request] so far. *)
Record World : Type := mkWorld {
  sessions : list bool;
  requests : list Request;
}.

(** [class FM]. *)
Record FM : Type := mkFM {
  _session : option session_id;
  _close_session : bool;
  _request_timeout : Z;
  _auth : option Auth;
}.

Definition ENDPOINT : string := "https://account.flitsmeister.app/".
Definition METH_GET : string := "GET".
Definition METH_POST : string := "POST".

(** [needle in hay] on two [str]. *)
Fixpoint str_contains (needle hay : string) : bool :=
  String.prefix needle hay ||
  match hay with
  | EmptyString => false
  | String _ rest => str_contains needle rest
  end.

(** ** The token library, as the client calls it

    [jwt.decode(token, options={"verify_signature": False})] of PyJWT 2.
    The token is split and its payload segment parsed; a token that is no
    text, or not three segments of base64url, or whose payload is not a JSON
    object, raises [DecodeError].  With [verify_signature] off the options
    [verify_exp], [verify_nbf], [verify_iat], [verify_aud] and [verify_iss]
    default to off as well, so no claim of the payload is looked at: the
    payload comes back whatever its [exp].  [jwt_payload] is the parse. *)
Definition jwt_decode_unverified
    (jwt_payload : value → option (gmap string value)) (token : value)
    : outcome (gmap string value) :=
  match jwt_payload token with
  | Some payload => Ok payload
  | None => Raise (OtherError "DecodeError")
  end.

(** ** A scripted backend

    Stand-ins for the collaborators below, small enough to run the client
    on concrete inputs. *)

(** A token decoder that knows two tokens, a live one and an expired one,
    and checks expiry, as [jwt.decode] does when it is asked to. *)
Definition script_jwt_decode (token : value) : outcome (gmap string value) :=
  match token with
  | VStr t =>
      if String.eqb t "live.token"
      then Ok {[ "sub" := VStr "1EqBUC03nK"; "exp" := VInt 1893456000 ]}
      else if String.eqb t "expired.token" then Raise ExpiredSignatureError
      else Raise (OtherError "DecodeError")
  | _ => Raise (OtherError "DecodeError")
  end.

(** Local time that coincides with UTC. *)
Definition script_fromtimestamp (ts : value) : outcome datetime :=
  match ts with
  | VInt n => Ok (n * 1000000)%Z
  | _ => Raise (OtherError "TypeError")
  end.

Definition script_format (v : value) : string :=
  match v with
  | VStr s => s
  | _ => "None"
  end.

(** A server that answers every request with the same login document, and a
    session that refuses to send once closed. *)
Definition script_request (w : World) (rq : Request) : outcome Response :=
  match sessions w !! rq_session rq with
  | Some false =>
      let body := VDict {[ "sessionToken" := VStr "r:b866";
                           "accessToken" := VStr "live.token" ]} in
      Ok (mkResponse 200 (Ok "{}") (Some "application/json; charset=utf-8")
            (Ok body) (Ok "{}"))
  | _ => Raise (OtherError "RuntimeError")
  end.

(** The login document and the response of [script_request], by name. *)
Definition script_login_document : gmap string value :=
  {[ "sessionToken" := VStr "r:b866"; "accessToken" := VStr "live.token" ]}.

Definition script_response : Response :=
  mkResponse 200 (Ok "{}") (Some "application/json; charset=utf-8")
    (Ok (VDict script_login_document)) (Ok "{}").

(** A login document whose token has expired, and one without a token. *)
Definition script_expired_document : gmap string value :=
  {[ "sessionToken" := VStr "r:b866"; "accessToken" := VStr "expired.token" ]}.

Definition script_tokenless_document : gmap string value :=
  {[ "sessionToken" := VStr "r:b866" ]}.

(** The Auth that the login document decodes to, and a client constructed
    with it and without a session, in a world without sessions. *)
Definition script_auth : Auth :=
  mkAuth (Some (VStr "1EqBUC03nK")) (VStr "r:b866") (VStr "live.token")
    (Some 1893456000000000%Z).

Definition script_world : World := mkWorld [] [].

Definition script_client : FM := mkFM None false 10 (Some script_auth).

(** The payloads of the same two tokens: the expired one ran out on
    2001-09-09, the live one runs until 2030-01-01. *)
Definition script_expired_payload : gmap string value :=
  {[ "sub" := VStr "1EqBUC03nK"; "exp" := VInt 1000000000 ]}.

Definition script_jwt_payload (token : value) : option (gmap string value) :=
  match token with
  | VStr t =>
      if String.eqb t "live.token"
      then Some {[ "sub" := VStr "1EqBUC03nK"; "exp" := VInt 1893456000 ]}
      else if String.eqb t "expired.token" then Some script_expired_payload
      else None
  | _ => None
  end.

(** A token decoder whose payloads have no [exp] claim. *)
Definition script_jwt_decode_no_exp (token : value)
    : outcome (gmap string value) :=
  Ok {[ "sub" := VStr "1EqBUC03nK" ]}.

(** A server that answers with an HTML page. *)
Definition script_html_response : Response :=
  mkResponse 502 (Ok "<html>Bad Gateway</html>") (Some "text/html")
    (Raise (OtherError "ContentTypeError")) (Ok "<html>Bad Gateway</html>").

Definition script_html_request (w : World) (rq : Request) : outcome Response :=
  Ok script_html_response.

(** A connection that times out. *)
Definition script_timeout_request (w : World) (rq : Request) : outcome Response :=
  Raise (OtherError "TimeoutError").

Section Flitsmeister.

(** ** Collaborators *)

(** [jwt.decode(token, options={"verify_signature": False})]: the payload
    mapping, or the exception the library raises. *)
Variable jwt_decode : value → outcome (gmap string value).

(** [datetime.fromtimestamp]. *)
Variable datetime_fromtimestamp : value → outcome datetime.

(** The text an f-string puts in place of [{v}]. *)
Variable py_format : value → string.

(** [await session.request(method, url, json=data, headers=headers)] under
    [async_timeout.timeout]: the response, or the exception raised (a
    timeout, a transport failure, a closed session). *)
Variable session_request : World → Request → outcome Response.

(** ** Auth *)

(** The block under [with suppress(...)] in [Auth.__init__], run on the
    object under construction: how the block ends, and the object with the
    attributes assigned up to that point. *)
Definition Auth_init_body (self : Auth) : outcome unit * Auth :=
  match jwt_decode (access_token self) with
  | Raise e => (Raise e, self)
  | Ok decoded_jwt =>
      let self := set_object_id (dict_get decoded_jwt "sub") self in
      match datetime_fromtimestamp (dict_get decoded_jwt "exp") with
      | Raise e => (Raise e, self)
      | Ok expires => (Ok (), set_access_token_expires expires self)
      end
  end.

(** [with suppress(cls): block]: an exception of class [cls] ends the block
    quietly, any other one leaves it. *)
Definition suppress {S : Type} (cls : exn) (block : outcome unit * S)
    : outcome unit * S :=
  match block with
  | (Raise e, s) => if decide (e = cls) then (Ok (), s) else (Raise e, s)
  | (Ok u, s) => (Ok u, s)
  end.

(** [Auth.__init__]. *)
Definition Auth_init (session_token access_token : value) : outcome Auth :=
  let self := mkAuth None session_token access_token None in
  match suppress ExpiredSignatureError (Auth_init_body self) with
  | (Ok _, self) => Ok self
  | (Raise e, _) => Raise e
  end.

(** [Auth.from_dict]. *)
Definition Auth_from_dict (data : value) : outcome Auth :=
  session_token ← py_get data "sessionToken";
  access_token ← py_get data "accessToken";
  Auth_init session_token access_token.

(** ** FM *)

(** A method of [FM]: it runs on the client and the world, and leaves both
    as they are when it returns or raises. *)
Definition M (A : Type) : Type := FM → World → outcome A * FM * World.

#[global] Instance M_ret : MRet M := λ A a self w, (Ok a, self, w).

#[global] Instance M_bind : MBind M :=
  λ A B k m self w,
    match m self w with
    | (Ok a, self', w') => k a self' w'
    | (Raise e, self', w') => (Raise e, self', w')
    end.

(** An expression that touches neither the client nor the world. *)
Definition pure {A} (o : outcome A) : M A := λ self w, (o, self, w).

Definition result {A} (r : outcome A * FM * World) : outcome A := r.1.1.
Definition client {A} (r : outcome A * FM * World) : FM := r.1.2.
Definition world {A} (r : outcome A * FM * World) : World := r.2.

(** [FM.__init__]; [_close_session] keeps its class-level default. *)
Definition FM_init (client_session : option session_id) (request_timeout : Z)
    (auth : option Auth) : FM :=
  mkFM client_session false request_timeout auth.

(** [FM._request]. *)
Definition _request (path method : string) (data : value) : M value :=
  λ self w,
    (* if self._session is None: create one and remember to close it;
       [s] names the object [self._session] refers to from here on *)
    let '(s, self, w) :=
      match _session self with
      | None =>
          let s := length (sessions w) in
          (s,
           mkFM (Some s) true (_request_timeout self) (_auth self),
           mkWorld (sessions w ++ [false]) (requests w))
      | Some s => (s, self, w)
      end in
    let headers : gmap string value :=
      {[ "Content-Type" := VStr "application/json" ]} in
    let headers :=
      match _auth self with
      | Some auth => <[ "x-parse-session-token" := session_token auth ]> headers
      | None => headers
      end in
    let url := ENDPOINT +:+ path in
    let rq := mkRequest s method url data headers (_request_timeout self) in
    let sent := mkWorld (sessions w) (requests w ++ [rq]) in
    match session_request w rq with
    | Raise e => (Raise e, self, sent)
    | Ok resp =>
        match resp_text_utf8 resp with      (* logged at debug level *)
        | Raise e => (Raise e, self, sent)
        | Ok _ =>
            let content_type := default "" (resp_content_type resp) in
            if str_contains "application/json" content_type
            then (resp_json resp, self, sent)
            else (VStr <$> resp_text resp, self, sent)
        end
    end.

(** [FM.login]. *)
Definition login (username password : string) : M Auth :=
  response ← _request "parse/login" METH_POST
               (VDict {[ "_method" := VStr "GET";
                         "username" := VStr username;
                         "password" := VStr password ]});
  pure (Auth_from_dict response).

(** [FM.user]: the path is formatted, reading [self._auth.object_id],
    before [_request] is entered. *)
Definition user : M User :=
  λ self w,
    match _auth self with
    | None => (Raise NotauthenticatedException, self, w)
    | Some auth =>
        match object_id auth with
        | None => (Raise AttributeError, self, w)
        | Some oid =>
            (response ← _request ("parse/classes/_User/" +:+ py_format oid)
                           METH_GET (VDict ∅);
             pure (User_from_dict response)) self w
        end
    end.

(** [FM.statistics]. *)
Definition statistics : M Statistics :=
  λ self w,
    match _auth self with
    | None => (Raise NotauthenticatedException, self, w)
    | Some _ =>
        (response ← _request "parse/functions/fetchStatistics" METH_POST
                       (VDict ∅);
         pure (Statistics_from_dict response)) self w
    end.

(** [FM.close]: [ClientSession.close] sets the session's [closed] flag. *)
Definition close : M unit :=
  λ self w,
    match _session self with
    | Some s =>
        if _close_session self
        then (Ok (), self, mkWorld (<[s := true]> (sessions w)) (requests w))
        else (Ok (), self, w)
    | None => (Ok (), self, w)
    end.

(** [FM.__aenter__]. *)
Definition __aenter__ : M FM := λ self w, (Ok self, self, w).

(** [FM.__aexit__]. *)
Definition __aexit__ : M unit := close.

(** ** Runs of a client *)

(** The calls a program can make on a client once it is constructed. *)
Inductive call : Type :=
| CallLogin (username password : string)
| CallUser
| CallStatistics
| CallRequest (path method : string) (data : value)
| CallClose
| CallAEnter
| CallAExit.

(** One call, its result (or exception) dropped: what it leaves behind. *)
Definition run_call (c : call) (self : FM) (w : World) : FM * World :=
  match c with
  | CallLogin u p => let r := login u p self w in (client r, world r)
  | CallUser => let r := user self w in (client r, world r)
  | CallStatistics => let r := statistics self w in (client r, world r)
  | CallRequest p m d => let r := _request p m d self w in (client r, world r)
  | CallClose => let r := close self w in (client r, world r)
  | CallAEnter => let r := __aenter__ self w in (client r, world r)
  | CallAExit => let r := __aexit__ self w in (client r, world r)
  end.

Fixpoint run_calls (cs : list call) (self : FM) (w : World) : FM * World :=
  match cs with
  | [] => (self, w)
  | c :: cs => let '(self, w) := run_call c self w in run_calls cs self w
  end.

(** The headers expected on a request made while the client holds [auth]:
    the JSON content type, and the session-token header present, with the
    Auth's [session_token], exactly when there is an Auth. *)
Definition headers_for (auth : option Auth) (headers : gmap string value) : Prop :=
  headers !! "Content-Type" = Some (VStr "application/json") ∧
  headers !! "x-parse-session-token" = session_token <$> auth.

(** The client as [_request] leaves it: a client without a session gets
    the next free one and owns it. *)
Definition with_session (self : FM) (w : World) : FM :=
  match _session self with
  | None =>
      mkFM (Some (length (sessions w))) true (_request_timeout self) (_auth self)
  | Some _ => self
  end.

(** The three ways a call can leave the client and the world: untouched,
    after one pass through [_request], or after closing the owned session. *)
Inductive call_effect (self : FM) (w : World) : FM * World → Prop :=
| effect_none : call_effect self w (self, w)
| effect_request (rq : Request) :
    headers_for (_auth self) (rq_headers rq) →
    _session (with_session self w) = Some (rq_session rq) →
    call_effect self w
      (with_session self w,
       mkWorld (match _session self with
                | None => sessions w ++ [false]
                | Some _ => sessions w
                end) (requests w ++ [rq]))
| effect_close (s : session_id) :
    _session self = Some s →
    _close_session self = true →
    call_effect self w (self, mkWorld (<[s := true]> (sessions w)) (requests w)).

(** Session ownership for a client constructed with [client_session] in a
    world that held [n0] sessions: a supplied session stays in place, not
    owned, and nothing is created; otherwise either there is no session
    yet, or the client holds the one session created since, and owns it. *)
Definition ownership (client_session : option session_id) (n0 : nat)
    (self : FM) (w : World) : Prop :=
  match client_session with
  | Some s =>
      _session self = Some s ∧ _close_session self = false ∧
      length (sessions w) = n0
  | None =>
      (_session self = None ∧ _close_session self = false ∧
       length (sessions w) = n0) ∨
      (_session self = Some n0 ∧ _close_session self = true ∧
       length (sessions w) = S n0)
  end.

(** The call that started in world [w] and ended as [r] has sent one
    request, and [out] is what [session.request] made of it: it saw the
    sessions as the call leaves them and the requests made before. *)
Definition answered {A} (r : outcome A * FM * World) (w : World)
    (out : outcome Response) : Prop :=
  ∃ rq, requests (world r) = requests w ++ [rq] ∧
        session_request (mkWorld (sessions (world r)) (requests w)) rq = out.

(** A request as a client in state [self], in world [w], sends it: under the
    client's timeout, on the client's session (the one it gets now if it
    has none), to an address below [ENDPOINT]. *)
Definition sent_by (self : FM) (w : World) (rq : Request) : Prop :=
  rq_timeout rq = _request_timeout self ∧
  _session (with_session self w) = Some (rq_session rq) ∧
  String.prefix ENDPOINT (rq_url rq) = true.

(** * Properties *)

(** ** Reading a mapping *)

Lemma dict_get_Some (d : gmap string value) (k : string) (v : value) :
  d !! k = Some v → dict_get d k = v.
Proof. intros H. unfold dict_get. by rewrite H. Qed.

Lemma dict_get_None (d : gmap string value) (k : string) :
  d !! k = None → dict_get d k = VNone.
Proof. intros H. unfold dict_get. by rewrite H. Qed.

(** ** Decoding a login response *)

Lemma Auth_init_expired (st at_ : value) :
  jwt_decode at_ = Raise ExpiredSignatureError →
  Auth_init st at_ = Ok (mkAuth None st at_ None).
Proof.
  intros Hexp. unfold Auth_init, Auth_init_body. cbn.
  rewrite Hexp. reflexivity.
Qed.

Lemma Auth_init_decoded (st at_ : value) (payload : gmap string value)
    (expires : datetime) :
  jwt_decode at_ = Ok payload →
  datetime_fromtimestamp (dict_get payload "exp") = Ok expires →
  Auth_init st at_
  = Ok (mkAuth (Some (dict_get payload "sub")) st at_ (Some expires)).
Proof.
  intros Hdec Hts. unfold Auth_init, Auth_init_body. cbn.
  rewrite Hdec. cbn. rewrite Hts. reflexivity.
Qed.

(** The [suppress] path: should [jwt.decode] raise [ExpiredSignatureError]
    (it does when it verifies expiry), the login response is decoded without
    an exception; the Auth carries the mapping's [sessionToken] and
    [accessToken] as they are, and neither [object_id] nor
    [access_token_expires] is assigned. *)
Lemma Auth_from_dict_suppressed (d : gmap string value) :
  jwt_decode (dict_get d "accessToken") = Raise ExpiredSignatureError →
  Auth_from_dict (VDict d)
  = Ok (mkAuth None (dict_get d "sessionToken") (dict_get d "accessToken") None).
Proof.
  intros Hexp. unfold Auth_from_dict. cbn.
  by apply Auth_init_expired.
Qed.

(** C3. For a login response with [sessionToken] and [accessToken] keys whose
    access token decodes (it is not rejected as expired) to a payload with an
    integer expiry claim, the Auth stores both tokens as they are, its
    [object_id] is the payload's [sub] claim and its [access_token_expires] is
    [datetime.fromtimestamp] of the [exp] claim. *)
Theorem Auth_from_dict_live (d payload : gmap string value) (st at_ : value)
    (exp : Z) (expires : datetime) :
  d !! "sessionToken" = Some st →
  d !! "accessToken" = Some at_ →
  jwt_decode at_ = Ok payload →
  payload !! "exp" = Some (VInt exp) →
  datetime_fromtimestamp (VInt exp) = Ok expires →
  ∃ auth,
    Auth_from_dict (VDict d) = Ok auth ∧
    session_token auth = st ∧
    access_token auth = at_ ∧
    object_id auth = Some (dict_get payload "sub") ∧
    access_token_expires auth = Some expires.
Proof.
  intros Hst Hat Hdec Hexp Hts.
  exists (mkAuth (Some (dict_get payload "sub")) st at_ (Some expires)).
  split; [|done].
  unfold Auth_from_dict. cbn.
  rewrite (dict_get_Some _ _ _ Hst), (dict_get_Some _ _ _ Hat).
  apply Auth_init_decoded; [done|].
  by rewrite (dict_get_Some _ _ _ Hexp).
Qed.

(** C4. Once [access_token_expires] has been derived, the property is the
    comparison of the clock reading with it and nothing else: [True] at any
    reading after the expiry, [False] at any reading before it.  It is a
    function of the reading and the Auth, so it has no effect on either. *)
Theorem is_access_token_expired_compares (self : Auth) (expires now : datetime) :
  access_token_expires self = Some expires →
  is_access_token_expired now self = Ok (datetime_gt now expires) ∧
  ((expires < now)%Z → is_access_token_expired now self = Ok true) ∧
  ((now < expires)%Z → is_access_token_expired now self = Ok false).
Proof.
  intros Hset. unfold is_access_token_expired, datetime_gt. rewrite Hset.
  split; [done|]. split; intros Hlt; f_equal.
  - by apply Z.ltb_lt.
  - apply Z.ltb_ge. lia.
Qed.

(** ** Decoding user and statistics responses *)

Lemma User_from_dict_nested (d stats : gmap string value) :
  d !! "statistics" = Some (VDict stats) →
  User_from_dict (VDict d)
  = Ok (mkUser (dict_get d "4411EvEnabled") (dict_get d "4411ParkingEnabled")
          (dict_get d "4411PaymentMethodSet") (dict_get d "accessToken")
          (dict_get d "firstName") (dict_get d "gender")
          (dict_get d "has4411Account") (dict_get d "objectId")
          (dict_get d "parkingEnabled") (dict_get d "sessionToken")
          (dict_get stats "topSpeed") (dict_get stats "topSprint")
          (dict_get stats "travelDistance") (dict_get stats "travelTime")
          (dict_get d "username") (dict_get d "vehicleType")).
Proof.
  intros Hs. unfold User_from_dict. cbn.
  rewrite (dict_get_Some _ _ _ Hs). reflexivity.
Qed.

(** With the nested mapping in place the decoder is lenient: every key
    that is absent yields [None]. *)
Lemma User_from_dict_absent_keys (stats : gmap string value) :
  User_from_dict (VDict {[ "statistics" := VDict stats ]})
  = Ok (mkUser VNone VNone VNone VNone VNone VNone VNone VNone VNone VNone
          (dict_get stats "topSpeed") (dict_get stats "topSprint")
          (dict_get stats "travelDistance") (dict_get stats "travelTime")
          VNone VNone).
Proof.
  rewrite (User_from_dict_nested _ stats); [|by simplify_map_eq].
  by rewrite !dict_get_None by by simplify_map_eq.
Qed.

(** C5, on the code.  With the [statistics] sub-object, respectively the
    [result] envelope, absent from the input mapping, [.get] hands [None]
    to the next [.get] and both decoders raise [AttributeError] instead of
    producing a record of nulls; so it is on the empty mapping, and on the
    error document a Parse server sends in place of the expected one. *)
Theorem from_dict_without_nested_mapping :
  User_from_dict (VDict ∅) = Raise AttributeError ∧
  Statistics_from_dict (VDict ∅) = Raise AttributeError ∧
  User_from_dict (VDict {[ "firstName" := VStr "Dana" ]}) = Raise AttributeError ∧
  Statistics_from_dict
    (VDict {[ "code" := VInt 209; "error" := VStr "Invalid session token" ]})
  = Raise AttributeError.
Proof. repeat split; vm_compute; reflexivity. Qed.

(** C6. On a response [{"result": inner}] with [inner] a mapping, every
    field of the record is read from [inner], one level below the envelope
    and no deeper, under its own key; a list found under [countries_visited]
    or [provinces_visited] is stored as it is, element for element. *)
Theorem Statistics_from_dict_unwraps (d inner : gmap string value) :
  d !! "result" = Some (VDict inner) →
  ∃ stats,
    Statistics_from_dict (VDict d) = Ok stats ∧
    stats = mkStatistics (dict_get inner "ambassador")
              (dict_get inner "countries_visited")
              (dict_get inner "fines_avoided") (dict_get inner "km_driven")
              (dict_get inner "navigation_finished")
              (dict_get inner "parked_once")
              (dict_get inner "provinces_visited")
              (dict_get inner "recruiter") (dict_get inner "sec_driven")
              (dict_get inner "times_in_traffic")
              (dict_get inner "top_100_sprint_ms")
              (dict_get inner "top_consecutive_days")
              (dict_get inner "top_speed") (dict_get inner "total_ratings") ∧
    (∀ cs : list value,
       inner !! "countries_visited" = Some (VList cs) →
       countries_visited stats = VList cs) ∧
    (∀ ps : list value,
       inner !! "provinces_visited" = Some (VList ps) →
       provinces_visited stats = VList ps).
Proof.
  intros Hr. eexists. split.
  { unfold Statistics_from_dict. cbn. rewrite (dict_get_Some _ _ _ Hr).
    reflexivity. }
  split; [done|].
  split; intros l Hl; cbn; by rewrite (dict_get_Some _ _ _ Hl).
Qed.

(** ** The request helper *)

Ltac request_cases :=
  repeat match goal with
         | |- context [session_request ?w ?rq] =>
             destruct (session_request w rq) as [?resp|?e]; cbn
         | |- context [resp_text_utf8 ?r] => destruct (resp_text_utf8 r); cbn
         | |- context [str_contains ?a ?b] => destruct (str_contains a b); cbn
         end.

Lemma _request_effect (path method : string) (data : value) (self : FM) (w : World) :
  ∃ rq,
    client (_request path method data self w) = with_session self w ∧
    world (_request path method data self w)
    = mkWorld (match _session self with
               | None => sessions w ++ [false]
               | Some _ => sessions w
               end) (requests w ++ [rq]) ∧
    headers_for (_auth self) (rq_headers rq) ∧
    rq_method rq = method ∧ rq_url rq = ENDPOINT +:+ path ∧ rq_json rq = data ∧
    _session (with_session self w) = Some (rq_session rq).
Proof.
  unfold _request, client, world, with_session, headers_for.
  destruct (_session self) as [s|] eqn:Hs; cbn; rewrite ?Hs; cbn;
    eexists; (split; [request_cases; reflexivity|]);
    (split; [request_cases; reflexivity|]); cbn;
    (destruct (_auth self) as [auth|]; cbn; repeat split; by simplify_map_eq).
Qed.

Lemma bind_pure_run {A B} (m : M A) (f : A → outcome B) (self : FM) (w : World) :
  (x ← m; pure (f x)) self w
  = (result (m self w) ≫= f, client (m self w), world (m self w)).
Proof.
  unfold mbind, M_bind, pure, result, client, world.
  by destruct (m self w) as [[[a|e] self'] w'].
Qed.

Lemma with_session_auth (self : FM) (w : World) :
  _auth (with_session self w) = _auth self.
Proof. unfold with_session. by destruct (_session self). Qed.

Lemma request_call_effect {A} (path method : string) (data : value)
    (f : value → outcome A) (self : FM) (w : World) :
  let r := (response ← _request path method data; pure (f response)) self w in
  call_effect self w (client r, world r).
Proof.
  cbn. rewrite bind_pure_run. unfold client at 1, world at 1. cbn.
  destruct (_request_effect path method data self w)
    as (rq & -> & -> & Hh & _ & _ & _ & Hs).
  by constructor.
Qed.

Lemma close_call_effect (self : FM) (w : World) :
  call_effect self w (client (close self w), world (close self w)).
Proof.
  unfold close, client, world.
  destruct (_session self) as [s|] eqn:Hs; [|constructor].
  destruct (_close_session self) eqn:Hc; cbn; by constructor.
Qed.

Lemma run_call_effect (c : call) (self : FM) (w : World) :
  call_effect self w (run_call c self w).
Proof.
  destruct c; cbn.
  - apply (request_call_effect _ _ _ Auth_from_dict).
  - unfold user. destruct (_auth self) as [auth|]; [|constructor].
    destruct (object_id auth); [|constructor].
    apply (request_call_effect _ _ _ User_from_dict).
  - unfold statistics. destruct (_auth self) as [auth|]; [|constructor].
    apply (request_call_effect _ _ _ Statistics_from_dict).
  - destruct (_request_effect path method data self w)
      as (rq & -> & -> & Hh & _ & _ & _ & Hs).
    by constructor.
  - apply close_call_effect.
  - constructor.
  - apply close_call_effect.
Qed.

Lemma call_effect_auth (self self' : FM) (w w' : World) :
  call_effect self w (self', w') → _auth self' = _auth self.
Proof. inversion 1; subst; auto using with_session_auth. Qed.

Lemma call_effect_requests (self self' : FM) (w w' : World) :
  call_effect self w (self', w') →
  ∃ new, requests w' = requests w ++ new ∧
         Forall (λ rq, headers_for (_auth self) (rq_headers rq)) new.
Proof.
  inversion 1; subst; cbn.
  - exists []. by rewrite app_nil_r.
  - exists [rq]. split; [done|]. apply Forall_cons. by split.
  - exists []. by rewrite app_nil_r.
Qed.

Lemma call_effect_ownership (cs0 : option session_id) (n0 : nat)
    (self self' : FM) (w w' : World) :
  ownership cs0 n0 self w →
  call_effect self w (self', w') →
  ownership cs0 n0 self' w'.
Proof.
  intros Hown Heff. inversion Heff; subst; clear Heff; [done| |].
  - unfold ownership, with_session in *. destruct cs0 as [s0|].
    + destruct Hown as (Hs & Hc & Hn). rewrite Hs. cbn. auto.
    + destruct Hown as [(Hs & Hc & Hn)|(Hs & Hc & Hn)]; rewrite Hs; cbn.
      * right. rewrite length_app. cbn. repeat split; [congruence|lia].
      * right. auto.
  - unfold ownership in *. cbn. rewrite length_insert. done.
Qed.

Lemma run_calls_ownership (cs0 : option session_id) (n0 : nat)
    (cs : list call) (self : FM) (w : World) :
  ownership cs0 n0 self w →
  ownership cs0 n0 (run_calls cs self w).1 (run_calls cs self w).2.
Proof.
  revert self w. induction cs as [|c cs IH]; intros self w Hown; [done|].
  cbn. destruct (run_call c self w) as [self' w'] eqn:Hc.
  apply IH. eapply call_effect_ownership; [done|].
  rewrite <- Hc. apply run_call_effect.
Qed.

Lemma FM_init_ownership (cs0 : option session_id) (t : Z) (auth : option Auth)
    (w0 : World) :
  ownership cs0 (length (sessions w0)) (FM_init cs0 t auth) w0.
Proof. unfold ownership, FM_init. destruct cs0; cbn; auto. Qed.

Lemma run_calls_requests (cs : list call) (self : FM) (w : World) :
  _auth (run_calls cs self w).1 = _auth self ∧
  ∃ new, requests (run_calls cs self w).2 = requests w ++ new ∧
         Forall (λ rq, headers_for (_auth self) (rq_headers rq)) new.
Proof.
  revert self w. induction cs as [|c cs IH]; intros self w.
  - split; [done|]. exists []. by rewrite app_nil_r.
  - cbn. pose proof (run_call_effect c self w) as Heff.
    destruct (run_call c self w) as [self' w'].
    pose proof (call_effect_auth _ _ _ _ Heff) as Hauth.
    destruct (call_effect_requests _ _ _ _ Heff) as (n1 & Hn1 & Hf1).
    destruct (IH self' w') as (Ha & n2 & Hn2 & Hf2).
    split; [congruence|].
    exists (n1 ++ n2). rewrite Hn2, Hn1, app_assoc. split; [done|].
    apply Forall_app. split; [done|]. by rewrite <- Hauth.
Qed.

Lemma login_world (username password : string) (self : FM) (w : World) :
  ∃ rq, world (login username password self w)
        = mkWorld (match _session self with
                   | None => sessions w ++ [false]
                   | Some _ => sessions w
                   end) (requests w ++ [rq]) ∧
        headers_for (_auth self) (rq_headers rq).
Proof.
  unfold login. rewrite bind_pure_run. unfold world at 1. cbn.
  destruct (_request_effect "parse/login" METH_POST
              (VDict {[ "_method" := VStr "GET";
                        "username" := VStr username;
                        "password" := VStr password ]}) self w)
    as (rq & _ & -> & Hh & _).
  by exists rq.
Qed.

(** ** The claims about the client *)

(** C2. On a client that holds no Auth, [user()] and [statistics()] raise
    [NotauthenticatedException] and leave the client and the world exactly
    as they were: no session is created and no request is sent. *)
Theorem unauthenticated_calls_stay_local (self : FM) (w : World) :
  _auth self = None →
  user self w = (Raise NotauthenticatedException, self, w) ∧
  statistics self w = (Raise NotauthenticatedException, self, w).
Proof. intros Hnone. unfold user, statistics. by rewrite Hnone. Qed.

(** C7. [login] returns [Auth.from_dict] of what the request helper hands
    back (or the helper's exception), and the Auth the client holds is the
    one it held before: the client and the world are left as the helper
    left them. *)
Theorem login_keeps_held_auth (username password : string) (self : FM) (w : World) :
  let r := login username password self w in
  let q := _request "parse/login" METH_POST
             (VDict {[ "_method" := VStr "GET";
                       "username" := VStr username;
                       "password" := VStr password ]}) self w in
  _auth (client r) = _auth self ∧
  result r = (result q ≫= Auth_from_dict) ∧
  client r = client q ∧
  world r = world q.
Proof.
  cbn. unfold login. rewrite bind_pure_run.
  unfold client at 1 3, world at 1, result at 1. cbn.
  destruct (_request_effect "parse/login" METH_POST
              (VDict {[ "_method" := VStr "GET";
                        "username" := VStr username;
                        "password" := VStr password ]}) self w)
    as (rq & -> & _).
  by rewrite with_session_auth.
Qed.

(** C9. Every pass through the request helper sends one request whose
    headers carry the JSON content type and carry [x-parse-session-token],
    set to the held Auth's session token, exactly when an Auth is held;
    this holds for the request of [login] as for any other, and for every
    request sent during any sequence of calls on the client. *)
Theorem request_headers_follow_auth (self : FM) (w : World) :
  (∀ (path method : string) (data : value),
     ∃ rq, requests (world (_request path method data self w))
           = requests w ++ [rq] ∧
           headers_for (_auth self) (rq_headers rq)) ∧
  (∀ username password : string,
     ∃ rq, requests (world (login username password self w))
           = requests w ++ [rq] ∧
           headers_for (_auth self) (rq_headers rq)) ∧
  (∀ cs : list call,
     ∃ new, requests (run_calls cs self w).2 = requests w ++ new ∧
            Forall (λ rq, headers_for (_auth self) (rq_headers rq)) new).
Proof.
  split; [|split].
  - intros path method data.
    destruct (_request_effect path method data self w) as (rq & _ & -> & Hh & _).
    by exists rq.
  - intros username password.
    destruct (login_world username password self w) as (rq & -> & Hh).
    by exists rq.
  - intros cs. apply run_calls_requests.
Qed.

(** C10. After any sequence of calls on a freshly constructed client: a
    client that was given a session still holds that session, with the
    ownership flag false, and no session was created; a client that was
    given none either still has none (flag false, nothing created) or holds
    the single session created since construction, with the flag true.
    Each pass through the request helper creates a session, and sets the
    flag, exactly when the client has none; and no call replaces a session
    the client holds or changes its flag. *)
Theorem session_ownership_invariant (client_session : option session_id)
    (request_timeout : Z) (auth : option Auth) (w0 : World) (cs : list call) :
  let final := run_calls cs (FM_init client_session request_timeout auth) w0 in
  ownership client_session (length (sessions w0)) final.1 final.2 ∧
  (∀ (path method : string) (data : value) (self : FM) (w : World),
     let r := _request path method data self w in
     match _session self with
     | None =>
         _session (client r) = Some (length (sessions w)) ∧
         _close_session (client r) = true ∧
         sessions (world r) = sessions w ++ [false]
     | Some s =>
         _session (client r) = Some s ∧
         _close_session (client r) = _close_session self ∧
         sessions (world r) = sessions w
     end) ∧
  (∀ (c : call) (self : FM) (w : World),
     match _session self with
     | Some s =>
         _session (run_call c self w).1 = Some s ∧
         _close_session (run_call c self w).1 = _close_session self
     | None => True
     end).
Proof.
  cbn. split; [|split].
  - apply run_calls_ownership, FM_init_ownership.
  - intros path method data self w.
    destruct (_request_effect path method data self w) as (rq & -> & -> & _).
    unfold with_session. by destruct (_session self) as [s|] eqn:Hs.
  - intros c self w. destruct (_session self) as [s|] eqn:Hs; [|done].
    pose proof (run_call_effect c self w) as Heff.
    destruct (run_call c self w) as [self' w'].
    inversion Heff; subst; cbn; [done| |done].
    unfold with_session. by rewrite Hs.
Qed.

(** C8. After any sequence of calls on a freshly constructed client,
    [close()] returns without an exception and leaves the client as it is;
    it marks a session closed exactly when the client was given none and
    has created one, and then it is that session; with a supplied session,
    or with no session at all, the world is untouched.  A second [close()],
    and likewise [__aexit__], which is [close()], changes nothing and
    raises nothing. *)
Theorem close_releases_only_owned_session (client_session : option session_id)
    (request_timeout : Z) (auth : option Auth) (w0 : World) (cs : list call) :
  let final := run_calls cs (FM_init client_session request_timeout auth) w0 in
  let self := final.1 in
  let w := final.2 in
  let r := close self w in
  result r = Ok () ∧
  client r = self ∧
  match client_session, _session self with
  | Some _, _ => world r = w
  | None, None => world r = w
  | None, Some s =>
      s = length (sessions w0) ∧
      sessions w0 !! s = None ∧
      world r = mkWorld (<[s := true]> (sessions w)) (requests w) ∧
      sessions (world r) !! s = Some true
  end ∧
  close (client r) (world r) = (Ok (), client r, world r) ∧
  __aexit__ self w = r ∧
  __aexit__ (client r) (world r) = (Ok (), client r, world r).
Proof.
  cbn.
  pose proof (run_calls_ownership client_session (length (sessions w0)) cs _ _
                (FM_init_ownership client_session request_timeout auth w0))
    as Hown.
  destruct (run_calls cs (FM_init client_session request_timeout auth) w0)
    as [self w].
  unfold __aexit__, close, result, client, world, ownership in *. cbn in *.
  destruct client_session as [s0|].
  - destruct Hown as (Hs & Hc & Hn).
    repeat first [rewrite Hs | rewrite Hc | progress cbn]. done.
  - destruct Hown as [(Hs & Hc & Hn)|(Hs & Hc & Hn)];
      repeat first [rewrite Hs | rewrite Hc | progress cbn]; [done|].
    rewrite list_insert_insert_eq. repeat split.
    + apply lookup_ge_None. lia.
    + apply list_lookup_insert_eq. lia.
Qed.

(** * Further properties *)

(** ** The decoders of models.py *)

(** X1. [User.from_dict] on a mapping whose [statistics] entry is a mapping
    returns a User: the four [statistics_*] fields are read from the nested
    mapping, the other twelve from the outer one, each under its own key,
    and [None] stands for every key that is absent. *)
Theorem User_from_dict_flattens (d stats : gmap string value) :
  d !! "statistics" = Some (VDict stats) →
  ∃ u,
    User_from_dict (VDict d) = Ok u ∧
    fourfouroneone_ev_enabled u = dict_get d "4411EvEnabled" ∧
    fourfouroneone_parking_enabled u = dict_get d "4411ParkingEnabled" ∧
    fourfouroneone_payment_method_set u = dict_get d "4411PaymentMethodSet" ∧
    user_access_token u = dict_get d "accessToken" ∧
    first_name u = dict_get d "firstName" ∧
    gender u = dict_get d "gender" ∧
    has_4411_account u = dict_get d "has4411Account" ∧
    user_object_id u = dict_get d "objectId" ∧
    parking_enabled u = dict_get d "parkingEnabled" ∧
    user_session_token u = dict_get d "sessionToken" ∧
    statistics_top_speed u = dict_get stats "topSpeed" ∧
    statistics_top_sprint u = dict_get stats "topSprint" ∧
    statistics_travel_distance u = dict_get stats "travelDistance" ∧
    statistics_travel_time u = dict_get stats "travelTime" ∧
    username u = dict_get d "username" ∧
    vehicle_type u = dict_get d "vehicleType".
Proof.
  intros Hs. eexists. split; [by apply User_from_dict_nested|].
  cbn. repeat split.
Qed.

(** X2. [User.from_dict] fails exactly when its argument is not a mapping
    or the [statistics] entry is missing or not a mapping, and then with
    [AttributeError]. *)
Theorem User_from_dict_fails_iff (data : value) :
  User_from_dict data = Raise AttributeError ↔
  ¬ ∃ d stats, data = VDict d ∧ d !! "statistics" = Some (VDict stats).
Proof.
  split.
  - intros Hfail (d & stats & -> & Hs).
    rewrite (User_from_dict_nested _ _ Hs) in Hfail. discriminate.
  - intros Hno. destruct data as [| | | | |d]; try reflexivity.
    unfold User_from_dict. cbn.
    destruct (d !! "statistics") as [v|] eqn:Hs.
    + rewrite (dict_get_Some _ _ _ Hs).
      destruct v as [| | | | |stats]; try reflexivity.
      destruct Hno. by exists d, stats.
    + by rewrite (dict_get_None _ _ Hs).
Qed.

(** X3. [Statistics.from_dict] fails exactly when its argument is not a
    mapping or the [result] entry is missing or not a mapping, and then with
    [AttributeError]. *)
Theorem Statistics_from_dict_fails_iff (data : value) :
  Statistics_from_dict data = Raise AttributeError ↔
  ¬ ∃ d inner, data = VDict d ∧ d !! "result" = Some (VDict inner).
Proof.
  split.
  - intros Hfail (d & inner & -> & Hr). revert Hfail.
    unfold Statistics_from_dict. cbn. rewrite (dict_get_Some _ _ _ Hr).
    discriminate.
  - intros Hno. destruct data as [| | | | |d]; try reflexivity.
    unfold Statistics_from_dict. cbn.
    destruct (d !! "result") as [v|] eqn:Hr.
    + rewrite (dict_get_Some _ _ _ Hr).
      destruct v as [| | | | |inner]; try reflexivity.
      destruct Hno. by exists d, inner.
    + by rewrite (dict_get_None _ _ Hr).
Qed.

(** X4. [Statistics.from_dict] reads nothing but the [result] entry of the
    response: any other top-level entry, added or changed, leaves the
    outcome as it is. *)
Theorem Statistics_from_dict_outer_keys (d : gmap string value) (k : string)
    (v : value) :
  k ≠ "result" →
  Statistics_from_dict (VDict (<[k := v]> d)) = Statistics_from_dict (VDict d).
Proof.
  intros Hk. unfold Statistics_from_dict. cbn.
  assert (dict_get (<[k := v]> d) "result" = dict_get d "result") as ->; [|done].
  unfold dict_get. by rewrite lookup_insert_ne.
Qed.

(** ** Auth *)

(** X5. [Auth.from_dict] reads only [sessionToken] and [accessToken]: any
    other entry of the login response, added or changed, leaves the outcome
    as it is. *)
Theorem Auth_from_dict_other_keys (d : gmap string value) (k : string)
    (v : value) :
  k ≠ "sessionToken" → k ≠ "accessToken" →
  Auth_from_dict (VDict (<[k := v]> d)) = Auth_from_dict (VDict d).
Proof.
  intros Hs Ha. unfold Auth_from_dict. cbn.
  assert (∀ k', k ≠ k' → dict_get (<[k := v]> d) k' = dict_get d k') as Hget.
  { intros k' Hk'. unfold dict_get. by rewrite lookup_insert_ne. }
  by rewrite !Hget.
Qed.

Lemma Auth_init_Ok (st at_ : value) (auth : Auth) :
  Auth_init st at_ = Ok auth →
  session_token auth = st ∧ access_token auth = at_ ∧
  (∀ v, object_id auth = Some v →
        ∃ payload, jwt_decode at_ = Ok payload ∧ v = dict_get payload "sub") ∧
  (∀ t, access_token_expires auth = Some t →
        ∃ payload, jwt_decode at_ = Ok payload ∧
                   object_id auth = Some (dict_get payload "sub") ∧
                   datetime_fromtimestamp (dict_get payload "exp") = Ok t).
Proof.
  unfold Auth_init, Auth_init_body. cbn.
  destruct (jwt_decode at_) as [payload|e] eqn:Hdec; cbn.
  - destruct (datetime_fromtimestamp (dict_get payload "exp")) as [t|e] eqn:Hts;
      cbn.
    + intros [= <-]. cbn. repeat split.
      * intros v [= <-]. by exists payload.
      * intros t' [= <-]. by exists payload.
    + destruct (decide (e = ExpiredSignatureError)); [|discriminate].
      intros [= <-]. cbn. repeat split; [|discriminate].
      intros v [= <-]. by exists payload.
  - destruct (decide (e = ExpiredSignatureError)); [|discriminate].
    intros [= <-]. cbn. repeat split; discriminate.
Qed.

(** X6. Whenever [Auth.from_dict] returns an Auth, the argument was a
    mapping, the Auth's tokens are that mapping's [sessionToken] and
    [accessToken] entries ([None] when absent), and the derived attributes
    can only come from the decoded token: an [object_id] is the payload's
    [sub], and an [access_token_expires] is [datetime.fromtimestamp] of the
    payload's [exp] and is never present without the [object_id]. *)
Theorem Auth_from_dict_Ok (data : value) (auth : Auth) :
  Auth_from_dict data = Ok auth →
  ∃ d,
    data = VDict d ∧
    session_token auth = dict_get d "sessionToken" ∧
    access_token auth = dict_get d "accessToken" ∧
    (∀ v, object_id auth = Some v →
          ∃ payload, jwt_decode (access_token auth) = Ok payload ∧
                     v = dict_get payload "sub") ∧
    (∀ t, access_token_expires auth = Some t →
          ∃ payload, jwt_decode (access_token auth) = Ok payload ∧
                     object_id auth = Some (dict_get payload "sub") ∧
                     datetime_fromtimestamp (dict_get payload "exp") = Ok t).
Proof.
  destruct data as [| | | | |d]; try discriminate.
  unfold Auth_from_dict. cbn. intros Hinit.
  destruct (Auth_init_Ok _ _ _ Hinit) as (Hst & Hat & Hid & Hexp).
  exists d. rewrite Hat. done.
Qed.

(** X7. Only [jwt.ExpiredSignatureError] is swallowed: any other exception
    from [jwt.decode] (a malformed token, a missing [accessToken]) leaves
    [Auth.from_dict], and no Auth is built. *)
Theorem Auth_from_dict_decode_error (d : gmap string value) (e : exn) :
  jwt_decode (dict_get d "accessToken") = Raise e →
  e ≠ ExpiredSignatureError →
  Auth_from_dict (VDict d) = Raise e.
Proof.
  intros Hdec Hne. unfold Auth_from_dict, Auth_init, Auth_init_body. cbn.
  rewrite Hdec. cbn. by destruct (decide (e = ExpiredSignatureError)).
Qed.

(** X8. When the token decodes but [datetime.fromtimestamp] rejects its
    [exp] claim (there is none, or it is no number), that exception leaves
    [Auth.from_dict] as well: no Auth is built, although the [sub] claim had
    been read. *)
Theorem Auth_from_dict_timestamp_error (d payload : gmap string value) (e : exn) :
  jwt_decode (dict_get d "accessToken") = Ok payload →
  datetime_fromtimestamp (dict_get payload "exp") = Raise e →
  e ≠ ExpiredSignatureError →
  Auth_from_dict (VDict d) = Raise e.
Proof.
  intros Hdec Hts Hne. unfold Auth_from_dict, Auth_init, Auth_init_body. cbn.
  rewrite Hdec. cbn. rewrite Hts. cbn.
  by destruct (decide (e = ExpiredSignatureError)).
Qed.

(** ** The request helper, in full *)

Lemma _request_run (path method : string) (data : value) (self : FM) (w : World) :
  let r := _request path method data self w in
  ∃ rq,
    client r = with_session self w ∧
    world r = mkWorld (match _session self with
                       | None => sessions w ++ [false]
                       | Some _ => sessions w
                       end) (requests w ++ [rq]) ∧
    rq_method rq = method ∧ rq_url rq = ENDPOINT +:+ path ∧ rq_json rq = data ∧
    rq_timeout rq = _request_timeout self ∧
    _session (with_session self w) = Some (rq_session rq) ∧
    (∀ k, k ≠ "Content-Type" → k ≠ "x-parse-session-token" →
          rq_headers rq !! k = None) ∧
    result r
    = match session_request (mkWorld (sessions (world r)) (requests w)) rq with
      | Raise e => Raise e
      | Ok resp =>
          match resp_text_utf8 resp with
          | Raise e => Raise e
          | Ok _ =>
              if str_contains "application/json"
                   (default "" (resp_content_type resp))
              then resp_json resp
              else VStr <$> resp_text resp
          end
      end.
Proof.
  cbn. unfold _request, client, world, result, with_session.
  destruct w as [ss rqs].
  destruct (_session self) as [s|] eqn:Hs; cbn; rewrite ?Hs; cbn;
    eexists; (split; [request_cases; reflexivity|]);
    (split; [request_cases; reflexivity|]); cbn;
    (do 5 (split; [reflexivity|]));
    (split;
     [intros k Hk1 Hk2; destruct (_auth self); by simplify_map_eq
     |idtac]);
    repeat (match goal with
            | |- (match ?X with _ => _ end).1.1 = _ => destruct X eqn:?; cbn
            | |- (if ?X then _ else _).1.1 = _ => destruct X eqn:?; cbn
            end);
    repeat (match goal with
            | H : session_request _ _ = _ |- _ => rewrite H
            | H : resp_text_utf8 _ = _ |- _ => rewrite H
            | H : str_contains _ _ = _ |- _ => rewrite H
            end; cbn);
    reflexivity.
Qed.

Lemma answered_unique {A} (r : outcome A * FM * World) (w : World)
    (rq : Request) (out : outcome Response) :
  requests (world r) = requests w ++ [rq] →
  answered r w out →
  session_request (mkWorld (sessions (world r)) (requests w)) rq = out.
Proof.
  intros Hrq (rq' & Hrq' & Hout). rewrite Hrq in Hrq'.
  apply app_inv_head in Hrq'. by injection Hrq' as ->.
Qed.

Lemma with_session_timeout (self : FM) (w : World) :
  _request_timeout (with_session self w) = _request_timeout self.
Proof. unfold with_session. by destruct (_session self). Qed.

Lemma append_cons c a b : String c a +:+ b = String c (a +:+ b).
Proof. reflexivity. Qed.

Lemma prefix_spec (a b : string) :
  String.prefix a b = true ↔ ∃ post, b = a +:+ post.
Proof.
  revert b. induction a as [|c a IH]; intros b.
  - split; [by exists b|by destruct b].
  - destruct b as [|c' b].
    + split; [done|]. intros [post Hp]. rewrite append_cons in Hp. done.
    + change (String.prefix (String c a) (String c' b))
        with (if Ascii.ascii_dec c c' then String.prefix a b else false).
      destruct (Ascii.ascii_dec c c') as [->|Hne].
      * rewrite IH. split; intros [post Hp]; exists post.
        -- rewrite append_cons. by rewrite Hp.
        -- rewrite append_cons in Hp. congruence.
      * split; [done|]. intros [post Hp]. rewrite append_cons in Hp. congruence.
Qed.

Lemma prefix_append (a b : string) : String.prefix a (a +:+ b) = true.
Proof. apply prefix_spec. by exists b. Qed.

(** X10. Whatever the outcome, [_request] sends exactly one request: with
    the method and the JSON body it was given, to [ENDPOINT] followed by the
    path, under the client's timeout, and with no header besides
    [Content-Type] and [x-parse-session-token]. *)
Theorem _request_sends_one (path method : string) (data : value) (self : FM)
    (w : World) :
  ∃ rq,
    requests (world (_request path method data self w)) = requests w ++ [rq] ∧
    rq_method rq = method ∧
    rq_url rq = ENDPOINT +:+ path ∧
    rq_json rq = data ∧
    rq_timeout rq = _request_timeout self ∧
    (∀ k, k ≠ "Content-Type" → k ≠ "x-parse-session-token" →
          rq_headers rq !! k = None).
Proof.
  destruct (_request_run path method data self w)
    as (rq & _ & -> & Hm & Hu & Hj & Ht & _ & Hh & _).
  by exists rq.
Qed.

Lemma _request_result_Ok (path method : string) (data : value)
    (self : FM) (w : World) (resp : Response) (body : string) :
  answered (_request path method data self w) w (Ok resp) →
  resp_text_utf8 resp = Ok body →
  result (_request path method data self w)
  = if str_contains "application/json" (default "" (resp_content_type resp))
    then resp_json resp
    else VStr <$> resp_text resp.
Proof.
  intros Hans Hbody.
  destruct (_request_run path method data self w)
    as (rq & _ & Hw & _ & _ & _ & _ & _ & _ & ->).
  rewrite (answered_unique _ w rq (Ok resp)); [by rewrite Hbody| |done].
  by rewrite Hw.
Qed.

(** X11. What [_request] returns is decided by the response's declared
    content type alone: if it contains [application/json] (a parameter such
    as a charset may follow) the result is [resp.json()], otherwise, also
    when the header is missing, the body text as a [str]; the HTTP status
    plays no part. *)
Theorem _request_returns_by_content_type (path method : string) (data : value)
    (self : FM) (w : World) (resp : Response) (body : string) :
  let r := _request path method data self w in
  answered r w (Ok resp) →
  resp_text_utf8 resp = Ok body →
  result r
  = if str_contains "application/json" (default "" (resp_content_type resp))
    then resp_json resp
    else VStr <$> resp_text resp.
Proof. cbn. apply _request_result_Ok. Qed.

(** X12. An exception from [session.request] (a timeout, a transport
    failure) or from reading the body leaves [_request] unchanged; the
    session created for the attempt, if any, stays with the client, which
    then owns it. *)
Theorem _request_propagates (path method : string) (data : value)
    (self : FM) (w : World) (e : exn) :
  let r := _request path method data self w in
  answered r w (Raise e) ∨
  (∃ resp, answered r w (Ok resp) ∧ resp_text_utf8 resp = Raise e) →
  result r = Raise e ∧
  client r = with_session self w ∧
  (_session self = None →
   _session (client r) = Some (length (sessions w)) ∧
   _close_session (client r) = true ∧
   sessions (world r) = sessions w ++ [false]).
Proof.
  cbn. intros Hans.
  destruct (_request_run path method data self w)
    as (rq & Hc & Hw & _ & _ & _ & _ & _ & _ & Hres).
  assert (requests (world (_request path method data self w))
          = requests w ++ [rq]) as Hrq by by rewrite Hw.
  split; [|split; [done|]].
  - rewrite Hres. destruct Hans as [Hans|(resp & Hans & Htext)];
      rewrite (answered_unique _ w rq _ Hrq Hans); [done|by rewrite Htext].
  - intros Hnone. rewrite Hc, Hw. unfold with_session. by rewrite Hnone.
Qed.

(** X13. [str_contains], which stands for [needle in hay] on two strings,
    holds exactly when [hay] is some text, then [needle], then some
    text. *)
Theorem str_contains_spec (needle hay : string) :
  str_contains needle hay = true ↔ ∃ pre post, hay = pre +:+ needle +:+ post.
Proof.
  induction hay as [|c hay IH].
  - change (str_contains needle "") with (String.prefix needle "" || false).
    rewrite orb_false_r, prefix_spec. split.
    + intros [post Hp]. by exists "", post.
    + intros (pre & post & Hp). destruct pre as [|c pre]; [by exists post|].
      rewrite append_cons in Hp. done.
  - change (str_contains needle (String c hay))
      with (String.prefix needle (String c hay) || str_contains needle hay).
    rewrite orb_true_iff, prefix_spec, IH. split.
    + intros [[post Hp]|(pre & post & Hp)].
      * by exists "", post.
      * exists (String c pre), post. rewrite append_cons. by rewrite Hp.
    + intros (pre & post & Hp). destruct pre as [|c' pre].
      * left. by exists post.
      * right. rewrite append_cons in Hp. injection Hp as -> Hp.
        by exists pre, post.
Qed.

(** ** The three operations *)

Lemma request_then_decode {A} (path method : string) (data : value)
    (f : value → outcome A) (self : FM) (w : World) :
  let r := (response ← _request path method data; pure (f response)) self w in
  let q := _request path method data self w in
  result r = (result q ≫= f) ∧ client r = client q ∧ world r = world q.
Proof. cbn. by rewrite bind_pure_run. Qed.

Lemma request_then_decode_result {A} (path method : string) (data : value)
    (f : value → outcome A) (self : FM) (w : World) (resp : Response)
    (body : string) :
  let r := (response ← _request path method data; pure (f response)) self w in
  answered r w (Ok resp) →
  resp_text_utf8 resp = Ok body →
  result r
  = ((if str_contains "application/json" (default "" (resp_content_type resp))
      then resp_json resp
      else VStr <$> resp_text resp) ≫= f).
Proof.
  cbn. intros Hans Hbody.
  destruct (request_then_decode path method data f self w) as (-> & _ & Hw).
  rewrite <- (_request_result_Ok path method data self w resp body);
    [done| |done].
  unfold answered in *. by rewrite <- Hw.
Qed.

Lemma not_answered {A} (o : outcome A) (self : FM) (w : World)
    (out : outcome Response) :
  ¬ answered (o, self, w) w out.
Proof.
  intros (rq & Hrq & _). unfold world in Hrq. cbn in Hrq.
  apply (f_equal length) in Hrq. rewrite length_app in Hrq. cbn in Hrq. lia.
Qed.

(** X14. [login] always sends exactly one request: a POST to
    [https://account.flitsmeister.app/parse/login] whose JSON body has the
    three entries [_method] (the text GET), [username] and [password], and
    no other. *)
Theorem login_sends (username password : string) (self : FM) (w : World) :
  ∃ rq body,
    requests (world (login username password self w)) = requests w ++ [rq] ∧
    rq_method rq = "POST" ∧
    rq_url rq = "https://account.flitsmeister.app/parse/login" ∧
    rq_json rq = VDict body ∧
    body !! "_method" = Some (VStr "GET") ∧
    body !! "username" = Some (VStr username) ∧
    body !! "password" = Some (VStr password) ∧
    (∀ k, k ≠ "_method" → k ≠ "username" → k ≠ "password" → body !! k = None).
Proof.
  unfold login.
  destruct (request_then_decode "parse/login" METH_POST
              (VDict {[ "_method" := VStr "GET";
                        "username" := VStr username;
                        "password" := VStr password ]})
              Auth_from_dict self w) as (_ & _ & ->).
  destruct (_request_run "parse/login" METH_POST
              (VDict {[ "_method" := VStr "GET";
                        "username" := VStr username;
                        "password" := VStr password ]}) self w)
    as (rq & _ & -> & Hm & Hu & Hj & _).
  eexists rq, _. repeat split; [done|done|exact Hj|..].
  - by simplify_map_eq.
  - by simplify_map_eq.
  - by simplify_map_eq.
  - intros k H1 H2 H3. by simplify_map_eq.
Qed.

(** X15. [user] on a client whose Auth has an [object_id] sends exactly
    one request: a GET to [.../parse/classes/_User/] followed by the
    formatted [object_id], with the empty object as JSON body. *)
Theorem user_sends (self : FM) (w : World) (auth : Auth) (oid : value) :
  _auth self = Some auth →
  object_id auth = Some oid →
  ∃ rq,
    requests (world (user self w)) = requests w ++ [rq] ∧
    rq_method rq = "GET" ∧
    rq_url rq
    = "https://account.flitsmeister.app/parse/classes/_User/" +:+ py_format oid ∧
    rq_json rq = VDict ∅.
Proof.
  intros Hauth Hoid. unfold user. rewrite Hauth, Hoid.
  destruct (request_then_decode ("parse/classes/_User/" +:+ py_format oid)
              METH_GET (VDict ∅) User_from_dict self w) as (_ & _ & ->).
  destruct (_request_run ("parse/classes/_User/" +:+ py_format oid)
              METH_GET (VDict ∅) self w)
    as (rq & _ & -> & Hm & Hu & Hj & _).
  by exists rq.
Qed.

(** X16. [statistics] on a client that holds an Auth, with or without an
    [object_id], sends exactly one request: a POST to
    [.../parse/functions/fetchStatistics] with the empty object as JSON
    body. *)
Theorem statistics_sends (self : FM) (w : World) (auth : Auth) :
  _auth self = Some auth →
  ∃ rq,
    requests (world (statistics self w)) = requests w ++ [rq] ∧
    rq_method rq = "POST" ∧
    rq_url rq
    = "https://account.flitsmeister.app/parse/functions/fetchStatistics" ∧
    rq_json rq = VDict ∅.
Proof.
  intros Hauth. unfold statistics. rewrite Hauth.
  destruct (request_then_decode "parse/functions/fetchStatistics"
              METH_POST (VDict ∅) Statistics_from_dict self w) as (_ & _ & ->).
  destruct (_request_run "parse/functions/fetchStatistics"
              METH_POST (VDict ∅) self w)
    as (rq & _ & -> & Hm & Hu & Hj & _).
  by exists rq.
Qed.

(** X17. When the request is answered with a response that declares JSON,
    each operation returns its decoder applied to [resp.json()] (or the
    exception of either): [Auth.from_dict] for [login], [User.from_dict]
    for [user], [Statistics.from_dict] for [statistics]. *)
Theorem operations_decode_json (resp : Response) (body : string) :
  resp_text_utf8 resp = Ok body →
  str_contains "application/json" (default "" (resp_content_type resp)) = true →
  (∀ username password self w,
     answered (login username password self w) w (Ok resp) →
     result (login username password self w)
     = (resp_json resp ≫= Auth_from_dict)) ∧
  (∀ self w,
     answered (user self w) w (Ok resp) →
     result (user self w) = (resp_json resp ≫= User_from_dict)) ∧
  (∀ self w,
     answered (statistics self w) w (Ok resp) →
     result (statistics self w) = (resp_json resp ≫= Statistics_from_dict)).
Proof.
  intros Hbody Hjson. split; [|split].
  - intros username password self w Hans. unfold login in *.
    rewrite (request_then_decode_result _ _ _ _ _ _ resp body Hans Hbody).
    by rewrite Hjson.
  - intros self w. unfold user.
    destruct (_auth self) as [auth|]; [|by intros ?%not_answered].
    destruct (object_id auth) as [oid|]; [|by intros ?%not_answered].
    intros Hans.
    rewrite (request_then_decode_result _ _ _ _ _ _ resp body Hans Hbody).
    by rewrite Hjson.
  - intros self w. unfold statistics.
    destruct (_auth self) as [auth|]; [|by intros ?%not_answered].
    intros Hans.
    rewrite (request_then_decode_result _ _ _ _ _ _ resp body Hans Hbody).
    by rewrite Hjson.
Qed.

(** X18. When the request is answered with a response that does not
    declare JSON (an HTML error page, say), [_request] hands the body text
    on and each of the three operations raises [AttributeError], a [str]
    having no [get]. *)
Theorem operations_reject_text (resp : Response) (body text : string) :
  resp_text_utf8 resp = Ok body →
  str_contains "application/json" (default "" (resp_content_type resp)) = false →
  resp_text resp = Ok text →
  (∀ username password self w,
     answered (login username password self w) w (Ok resp) →
     result (login username password self w) = Raise AttributeError) ∧
  (∀ self w,
     answered (user self w) w (Ok resp) →
     result (user self w) = Raise AttributeError) ∧
  (∀ self w,
     answered (statistics self w) w (Ok resp) →
     result (statistics self w) = Raise AttributeError).
Proof.
  intros Hbody Hjson Htext. split; [|split].
  - intros username password self w Hans. unfold login in *.
    rewrite (request_then_decode_result _ _ _ _ _ _ resp body Hans Hbody).
    by rewrite Hjson, Htext.
  - intros self w. unfold user.
    destruct (_auth self) as [auth|]; [|by intros ?%not_answered].
    destruct (object_id auth) as [oid|]; [|by intros ?%not_answered].
    intros Hans.
    rewrite (request_then_decode_result _ _ _ _ _ _ resp body Hans Hbody).
    by rewrite Hjson, Htext.
  - intros self w. unfold statistics.
    destruct (_auth self) as [auth|]; [|by intros ?%not_answered].
    intros Hans.
    rewrite (request_then_decode_result _ _ _ _ _ _ resp body Hans Hbody).
    by rewrite Hjson, Htext.
Qed.

(** ** Whole runs *)

Lemma request_then_decode_sent {A} (path method : string) (data : value)
    (f : value → outcome A) (self : FM) (w : World) :
  let r := (response ← _request path method data; pure (f response)) self w in
  ∃ rq, requests (world r) = requests w ++ [rq] ∧ sent_by self w rq.
Proof.
  cbn. destruct (request_then_decode path method data f self w) as (_ & _ & ->).
  destruct (_request_run path method data self w)
    as (rq & _ & -> & _ & Hu & _ & Ht & Hs & _).
  exists rq. split; [done|]. unfold sent_by. rewrite Hu.
  auto using prefix_append.
Qed.

Lemma run_call_sent (c : call) (self : FM) (w : World) :
  requests (run_call c self w).2 = requests w ∨
  ∃ rq, requests (run_call c self w).2 = requests w ++ [rq] ∧ sent_by self w rq.
Proof.
  destruct c; cbn.
  - right. apply (request_then_decode_sent _ _ _ Auth_from_dict).
  - unfold user. destruct (_auth self) as [auth|]; [|by left].
    destruct (object_id auth); [|by left].
    right. apply (request_then_decode_sent _ _ _ User_from_dict).
  - unfold statistics. destruct (_auth self) as [auth|]; [|by left].
    right. apply (request_then_decode_sent _ _ _ Statistics_from_dict).
  - right. destruct (_request_run path method data self w)
      as (rq & _ & -> & _ & Hu & _ & Ht & Hs & _).
    exists rq. split; [done|]. unfold sent_by. rewrite Hu.
    auto using prefix_append.
  - left. unfold close, world.
    destruct (_session self); [destruct (_close_session self)|]; done.
  - by left.
  - left. unfold __aexit__, close, world.
    destruct (_session self); [destruct (_close_session self)|]; done.
Qed.

Lemma call_effect_timeout (self self' : FM) (w w' : World) :
  call_effect self w (self', w') → _request_timeout self' = _request_timeout self.
Proof. inversion 1; subst; auto using with_session_timeout. Qed.

Lemma ownership_session (cs0 : option session_id) (n0 : nat) (self : FM)
    (w : World) (s : session_id) :
  ownership cs0 n0 self w →
  _session (with_session self w) = Some s →
  s = default n0 cs0.
Proof.
  unfold ownership, with_session. destruct cs0 as [s0|]; cbn.
  - intros (Hs & _ & _). rewrite Hs. congruence.
  - intros [(Hs & _ & Hn)|(Hs & _ & _)]; rewrite Hs; cbn; congruence.
Qed.

Lemma run_calls_sent (cs0 : option session_id) (n0 : nat) (t : Z)
    (cs : list call) (self : FM) (w : World) :
  ownership cs0 n0 self w →
  _request_timeout self = t →
  ∃ new,
    requests (run_calls cs self w).2 = requests w ++ new ∧
    Forall (λ rq, rq_timeout rq = t ∧ rq_session rq = default n0 cs0 ∧
                  String.prefix ENDPOINT (rq_url rq) = true) new.
Proof.
  revert self w. induction cs as [|c cs IH]; intros self w Hown Ht.
  - exists []. by rewrite app_nil_r.
  - cbn. pose proof (run_call_effect c self w) as Heff.
    pose proof (run_call_sent c self w) as Hsent.
    destruct (run_call c self w) as [self' w'] eqn:Hc. cbn in Hsent.
    destruct (IH self' w') as (new & Hnew & Hall).
    { by eapply call_effect_ownership. }
    { by rewrite (call_effect_timeout _ _ _ _ Heff). }
    destruct Hsent as [Hsame|(rq & Hrq & Ht' & Hs & Hp)].
    + exists new. by rewrite Hnew, Hsame.
    + exists (rq :: new). rewrite Hnew, Hrq, <- app_assoc. split; [done|].
      apply Forall_cons. split; [|done].
      split; [congruence|]. split; [|done].
      by apply (ownership_session cs0 n0 self w).
Qed.

(** X19. Every request sent during any sequence of calls on a freshly
    constructed client carries the timeout given to the constructor, goes
    to an address below [ENDPOINT], and is sent on one and the same session:
    the one supplied to the constructor, or else the one the client created
    at its first request. *)
Theorem requests_of_a_run (client_session : option session_id)
    (request_timeout : Z) (auth : option Auth) (w0 : World) (cs : list call) :
  ∃ new,
    requests (run_calls cs (FM_init client_session request_timeout auth) w0).2
    = requests w0 ++ new ∧
    Forall (λ rq,
              rq_timeout rq = request_timeout ∧
              rq_session rq = default (length (sessions w0)) client_session ∧
              String.prefix ENDPOINT (rq_url rq) = true) new.
Proof.
  apply run_calls_sent; [apply FM_init_ownership|done].
Qed.

Lemma call_effect_old_sessions (cs0 : option session_id) (n0 : nat)
    (self self' : FM) (w w' : World) :
  ownership cs0 n0 self w →
  call_effect self w (self', w') →
  take n0 (sessions w') = take n0 (sessions w).
Proof.
  intros Hown Heff. inversion Heff; subst; clear Heff; cbn; [done| |].
  - destruct (_session self) eqn:Hs; [done|].
    apply take_app_le. unfold ownership in Hown.
    destruct cs0; [destruct Hown; congruence|].
    destruct Hown as [(_ & _ & Hn)|(Hs' & _)]; [lia|congruence].
  - apply take_insert_ge. unfold ownership in Hown.
    destruct cs0; [destruct Hown as (_ & ? & _); congruence|].
    destruct Hown as [(? & _)|(? & _ & _)]; [congruence|].
    assert (s = n0) by congruence. lia.
Qed.

Lemma run_calls_old_sessions (cs0 : option session_id) (n0 : nat)
    (cs : list call) (self : FM) (w : World) :
  ownership cs0 n0 self w →
  take n0 (sessions (run_calls cs self w).2) = take n0 (sessions w).
Proof.
  revert self w. induction cs as [|c cs IH]; intros self w Hown; [done|].
  cbn. pose proof (run_call_effect c self w) as Heff.
  destruct (run_call c self w) as [self' w'].
  rewrite IH by by eapply call_effect_ownership.
  by eapply call_effect_old_sessions.
Qed.

(** X20. No sequence of calls on a freshly constructed client touches a
    session that existed before the client did: each is still there, open
    or closed as it was, a supplied session included. *)
Theorem old_sessions_untouched (client_session : option session_id)
    (request_timeout : Z) (auth : option Auth) (w0 : World) (cs : list call) :
  take (length (sessions w0))
       (sessions (run_calls cs (FM_init client_session request_timeout auth) w0).2)
  = sessions w0.
Proof.
  rewrite (run_calls_old_sessions client_session)
    by apply FM_init_ownership.
  by apply take_ge.
Qed.

(** X21. [close] leaves [_session] in place: a request made after
    [close()] creates no new session but is sent on the old one, which, if
    the client owned it, is closed by then. *)
Theorem request_after_close (path method : string) (data : value) (self : FM)
    (w : World) (s : session_id) :
  _session self = Some s →
  let r1 := close self w in
  let r2 := _request path method data (client r1) (world r1) in
  client r2 = self ∧
  sessions (world r2) = sessions (world r1) ∧
  (∃ rq, requests (world r2) = requests w ++ [rq] ∧ rq_session rq = s) ∧
  (_close_session self = true → s < length (sessions w) →
   sessions (world r2) !! s = Some true).
Proof.
  intros Hs. cbn.
  assert (client (close self w) = self) as Hc.
  { unfold close, client. rewrite Hs. by destruct (_close_session self). }
  assert (requests (world (close self w)) = requests w) as Hr.
  { unfold close, world. rewrite Hs. by destruct (_close_session self). }
  destruct (_request_run path method data (client (close self w))
              (world (close self w)))
    as (rq & -> & -> & _ & _ & _ & _ & Hrs & _).
  rewrite Hc in *. unfold with_session in *. rewrite Hs in *. cbn.
  repeat split.
  - exists rq. rewrite Hr. split; [done|congruence].
  - intros Hown Hlt. unfold close, world. rewrite Hs, Hown. cbn.
    by apply list_lookup_insert_eq.
Qed.

(** X22. No sequence of calls gives the client an Auth: on a client
    constructed without one, [user] and [statistics] still raise
    [NotauthenticatedException], and send nothing, after any number of
    logins. *)
Theorem calls_never_authenticate (cs : list call) (self : FM) (w : World) :
  _auth self = None →
  let st := run_calls cs self w in
  user st.1 st.2 = (Raise NotauthenticatedException, st.1, st.2) ∧
  statistics st.1 st.2 = (Raise NotauthenticatedException, st.1, st.2).
Proof.
  intros Hnone. cbn.
  destruct (run_calls_requests cs self w) as (Hauth & _).
  unfold user, statistics. by rewrite Hauth, Hnone.
Qed.

(** X24. Nothing is retried: a sequence of calls sends at most one request
    per call, whatever the outcomes, and requests once sent stay in the
    record in the order they were made. *)
Theorem one_request_per_call_at_most (cs : list call) (self : FM) (w : World) :
  ∃ new,
    requests (run_calls cs self w).2 = requests w ++ new ∧
    (length new ≤ length cs)%nat.
Proof.
  revert self w. induction cs as [|c cs IH]; intros self w.
  - exists []. by rewrite app_nil_r.
  - cbn. pose proof (run_call_sent c self w) as Hsent.
    destruct (run_call c self w) as [self' w']. cbn in Hsent.
    destruct (IH self' w') as (new & Hnew & Hlen).
    destruct Hsent as [Hsame|(rq & Hrq & _)].
    + exists new. rewrite Hnew, Hsame. split; [done|lia].
    + exists (rq :: new). rewrite Hnew, Hrq, <- app_assoc.
      split; [done|]. cbn. lia.
Qed.

End Flitsmeister.

(** * Expired tokens, with the token library as the client calls it *)

Section Unverified.

Variable jwt_payload : value → option (gmap string value).
Variable datetime_fromtimestamp : value → outcome datetime.
Variable py_format : value → string.
Variable session_request : World → Request → outcome Response.


Lemma Auth_from_dict_unverified_Ok (d payload : gmap string value) (exp : Z)
    (expires : datetime) :
  jwt_payload (dict_get d "accessToken") = Some payload →
  payload !! "exp" = Some (VInt exp) →
  datetime_fromtimestamp (VInt exp) = Ok expires →
  Auth_from_dict (jwt_decode_unverified jwt_payload) datetime_fromtimestamp
    (VDict d)
  = Ok (mkAuth (Some (dict_get payload "sub")) (dict_get d "sessionToken")
          (dict_get d "accessToken") (Some expires)).
Proof.
  intros Hpayload Hexp Hts. unfold Auth_from_dict. cbn.
  apply Auth_init_decoded with (payload := payload).
  - unfold jwt_decode_unverified. by rewrite Hpayload.
  - by rewrite (dict_get_Some _ _ _ Hexp).
Qed.


(** X9. An Auth decoded from a login response whose token has expired can
    say so: [access_token_expires] is set from the token's [exp], and
    [is_access_token_expired] is the comparison of the clock reading with
    it, [True] at every reading after it; it does not raise. *)
Theorem expired_token_Auth_reports_expiry (d payload : gmap string value)
    (exp : Z) (expires : datetime) :
  jwt_payload (dict_get d "accessToken") = Some payload →
  payload !! "exp" = Some (VInt exp) →
  datetime_fromtimestamp (VInt exp) = Ok expires →
  ∃ auth,
    Auth_from_dict (jwt_decode_unverified jwt_payload) datetime_fromtimestamp
      (VDict d) = Ok auth ∧
    ∀ now : datetime,
      is_access_token_expired now auth = Ok (datetime_gt now expires) ∧
      ((expires < now)%Z → is_access_token_expired now auth = Ok true).
Proof.
  intros Hpayload Hexp Hts. eexists. split.
  - by apply Auth_from_dict_unverified_Ok with (exp := exp).
  - intros now. unfold is_access_token_expired, datetime_gt. cbn.
    split; [done|]. intros Hlt. f_equal. by apply Z.ltb_lt.
Qed.

(** X23. A client given the Auth decoded from a login response whose token
    has expired can still ask for the user: [user] formats the path with
    the token's [sub] and sends its one GET, with the session token of the
    login response in [x-parse-session-token]; expiry is not looked at. *)
Theorem user_with_expired_token_Auth (d payload : gmap string value)
    (exp : Z) (expires : datetime) :
  jwt_payload (dict_get d "accessToken") = Some payload →
  payload !! "exp" = Some (VInt exp) →
  datetime_fromtimestamp (VInt exp) = Ok expires →
  ∃ auth,
    Auth_from_dict (jwt_decode_unverified jwt_payload) datetime_fromtimestamp
      (VDict d) = Ok auth ∧
    ∀ client_session request_timeout w,
      ∃ rq,
        requests (world (user py_format session_request
                           (FM_init client_session request_timeout (Some auth))
                           w))
        = requests w ++ [rq] ∧
        rq_method rq = "GET" ∧
        rq_url rq
        = "https://account.flitsmeister.app/parse/classes/_User/"
          +:+ py_format (dict_get payload "sub") ∧
        rq_headers rq !! "x-parse-session-token"
        = Some (dict_get d "sessionToken").
Proof.
  intros Hpayload Hexp Hts. eexists. split.
  - by apply Auth_from_dict_unverified_Ok with (exp := exp).
  - intros client_session request_timeout w. unfold user. cbn.
    destruct (request_then_decode session_request
                ("parse/classes/_User/" +:+ py_format (dict_get payload "sub"))
                METH_GET (VDict ∅) User_from_dict
                (FM_init client_session request_timeout
                   (Some (mkAuth (Some (dict_get payload "sub"))
                            (dict_get d "sessionToken")
                            (dict_get d "accessToken") (Some expires)))) w)
      as (_ & _ & ->).
    destruct (_request_effect session_request
                ("parse/classes/_User/" +:+ py_format (dict_get payload "sub"))
                METH_GET (VDict ∅)
                (FM_init client_session request_timeout
                   (Some (mkAuth (Some (dict_get payload "sub"))
                            (dict_get d "sessionToken")
                            (dict_get d "accessToken") (Some expires)))) w)
      as (rq & _ & -> & (_ & Htoken) & Hm & Hu & _).
    exists rq. by repeat split.
Qed.

End Unverified.



Lemma expired_token_Auth_reports_expiry_witness :
  ∃ auth,
    Auth_from_dict (jwt_decode_unverified script_jwt_payload)
      script_fromtimestamp (VDict script_expired_document) = Ok auth ∧
    is_access_token_expired 1893456000000000%Z auth = Ok true.
Proof.
  destruct (expired_token_Auth_reports_expiry script_jwt_payload
              script_fromtimestamp script_expired_document
              script_expired_payload 1000000000%Z 1000000000000000%Z)
    as (auth & Hauth & Hexpired); [vm_compute; reflexivity ..|].
  exists auth. split; [exact Hauth|].
  apply (Hexpired 1893456000000000%Z). lia.
Defined.

Lemma user_with_expired_token_Auth_witness :
  ∃ auth,
    Auth_from_dict (jwt_decode_unverified script_jwt_payload)
      script_fromtimestamp (VDict script_expired_document) = Ok auth ∧
    ∃ rq,
      requests (world (user script_format script_request
                         (FM_init None 10 (Some auth)) script_world))
      = requests script_world ++ [rq] ∧
      rq_method rq = "GET" ∧
      rq_url rq
      = "https://account.flitsmeister.app/parse/classes/_User/"
        +:+ script_format (dict_get script_expired_payload "sub") ∧
      rq_headers rq !! "x-parse-session-token"
      = Some (dict_get script_expired_document "sessionToken").
Proof.
  destruct (user_with_expired_token_Auth script_jwt_payload
              script_fromtimestamp script_format script_request
              script_expired_document script_expired_payload 1000000000%Z
              1000000000000000%Z)
    as (auth & Hauth & Huser); [vm_compute; reflexivity ..|].
  exists auth. split; [exact Hauth|]. apply Huser.
Defined.

(** * The properties on the scripted backend *)

Example Auth_from_dict_suppressed_sample :
  Auth_from_dict script_jwt_decode script_fromtimestamp
    (VDict {[ "sessionToken" := VStr "r:b866";
              "accessToken" := VStr "expired.token" ]})
  = Ok (mkAuth None (VStr "r:b866") (VStr "expired.token") None).
Proof.
  etrans.
  - apply (Auth_from_dict_suppressed script_jwt_decode script_fromtimestamp
             {[ "sessionToken" := VStr "r:b866";
                "accessToken" := VStr "expired.token" ]}).
    vm_compute. reflexivity.
  - vm_compute. reflexivity.
Defined.

Lemma Auth_from_dict_live_witness :
  ∃ auth,
    Auth_from_dict script_jwt_decode script_fromtimestamp
      (VDict {[ "sessionToken" := VStr "r:b866";
                "accessToken" := VStr "live.token";
                "objectId" := VStr "ignored" ]}) = Ok auth ∧
    session_token auth = VStr "r:b866" ∧
    access_token auth = VStr "live.token" ∧
    object_id auth = Some (VStr "1EqBUC03nK") ∧
    access_token_expires auth = Some 1893456000000000%Z.
Proof.
  destruct (Auth_from_dict_live script_jwt_decode script_fromtimestamp
              {[ "sessionToken" := VStr "r:b866";
                 "accessToken" := VStr "live.token";
                 "objectId" := VStr "ignored" ]}
              {[ "sub" := VStr "1EqBUC03nK"; "exp" := VInt 1893456000%Z ]}
              (VStr "r:b866") (VStr "live.token")
              1893456000%Z 1893456000000000%Z)
    as (auth & Hdec & Hst & Hat & Hid & Hexp);
    [vm_compute; reflexivity ..|].
  exists auth. repeat split; [exact Hdec|exact Hst|exact Hat| |exact Hexp].
  rewrite Hid. vm_compute. reflexivity.
Defined.

Lemma is_access_token_expired_compares_witness :
  let auth := mkAuth (Some (VStr "1EqBUC03nK")) (VStr "r:b866")
                (VStr "live.token") (Some 1893456000000000%Z) in
  is_access_token_expired 1893456000000001%Z auth = Ok true ∧
  is_access_token_expired 1893455999999999%Z auth = Ok false ∧
  is_access_token_expired 1893456000000000%Z auth = Ok false.
Proof.
  intros auth. split; [|split].
  - destruct (is_access_token_expired_compares auth 1893456000000000%Z
                1893456000000001%Z) as (_ & Hafter & _); [reflexivity|].
    apply Hafter. lia.
  - destruct (is_access_token_expired_compares auth 1893456000000000%Z
                1893455999999999%Z) as (_ & _ & Hbefore); [reflexivity|].
    apply Hbefore. lia.
  - destruct (is_access_token_expired_compares auth 1893456000000000%Z
                1893456000000000%Z) as (Hcmp & _); [reflexivity|].
    exact Hcmp.
Defined.

Lemma Statistics_from_dict_unwraps_witness :
  ∃ stats,
    Statistics_from_dict
      (VDict {[ "result" :=
                  VDict {[ "fines_avoided" := VInt 210;
                           "km_driven" := VInt 63550;
                           "countries_visited" :=
                             VList [VStr "NL"; VStr "DE"; VStr "BE"; VStr "NL"] ]};
                "km_driven" := VInt 1 ]}) = Ok stats ∧
    fines_avoided stats = VInt 210 ∧
    km_driven stats = VInt 63550 ∧
    countries_visited stats = VList [VStr "NL"; VStr "DE"; VStr "BE"; VStr "NL"] ∧
    provinces_visited stats = VNone.
Proof.
  destruct (Statistics_from_dict_unwraps
              {[ "result" :=
                   VDict {[ "fines_avoided" := VInt 210;
                            "km_driven" := VInt 63550;
                            "countries_visited" :=
                              VList [VStr "NL"; VStr "DE"; VStr "BE"; VStr "NL"] ]};
                 "km_driven" := VInt 1 ]}
              {[ "fines_avoided" := VInt 210;
                 "km_driven" := VInt 63550;
                 "countries_visited" :=
                   VList [VStr "NL"; VStr "DE"; VStr "BE"; VStr "NL"] ]})
    as (stats & Hdec & Hfields & Hcountries & _).
  { vm_compute. reflexivity. }
  exists stats. split; [exact Hdec|].
  split; [rewrite Hfields; vm_compute; reflexivity|].
  split; [rewrite Hfields; vm_compute; reflexivity|].
  split; [apply Hcountries; vm_compute; reflexivity|].
  rewrite Hfields; vm_compute; reflexivity.
Defined.

Lemma unauthenticated_calls_stay_local_witness :
  let self := FM_init None 10 None in
  let w := mkWorld [] [] in
  user script_format script_request self w
  = (Raise NotauthenticatedException, self, w) ∧
  statistics script_request self w
  = (Raise NotauthenticatedException, self, w).
Proof.
  cbn zeta.
  apply (unauthenticated_calls_stay_local script_format script_request
           (FM_init None 10 None) (mkWorld [] [])).
  reflexivity.
Defined.

(** The user document of the API notes, cut down to the fields read here. *)
Example User_from_dict_sample :
  (λ u, (first_name u, statistics_top_speed u, username u)) <$>
    User_from_dict
      (VDict {[ "4411EvEnabled" := VBool false;
                "firstName" := VStr "Dana";
                "statistics" :=
                  VDict {[ "topSpeed" := VInt 413; "topSprint" := VInt 1;
                           "travelDistance" := VInt 59;
                           "travelTime" := VInt 158824560000 ]} ]})
  = Ok (VStr "Dana", VInt 413, VNone).
Proof. vm_compute. reflexivity. Qed.

(** A client that creates its session closes it; one that borrows a session
    leaves it open; a second [close()] changes nothing. *)
Example close_on_owned_and_borrowed_sessions :
  let run := run_calls script_jwt_decode script_fromtimestamp script_format
               script_request in
  sessions (run [CallLogin "u" "p"; CallClose] (FM_init None 10 None)
              (mkWorld [false] [])).2 = [false; true] ∧
  sessions (run [CallLogin "u" "p"; CallClose; CallAExit] (FM_init None 10 None)
              (mkWorld [false] [])).2 = [false; true] ∧
  sessions (run [CallLogin "u" "p"; CallClose] (FM_init (Some 0) 10 None)
              (mkWorld [false] [])).2 = [false].
Proof. repeat split; vm_compute; reflexivity. Qed.

(** [login] on a client that already holds an Auth sends the session token
    too, and returns the new Auth without attaching it. *)
Example login_with_held_auth :
  let held := mkAuth None (VStr "r:old") (VStr "expired.token") None in
  let r := login script_jwt_decode script_fromtimestamp script_request "u" "p"
             (FM_init None 10 (Some held)) (mkWorld [] []) in
  _auth (client r) = Some held ∧
  (session_token <$> result r) = Ok (VStr "r:b866") ∧
  (λ rq, rq_headers rq !! "x-parse-session-token") <$> requests (world r)
  = [Some (VStr "r:old")].
Proof. repeat split; vm_compute; reflexivity. Qed.

(** * The further properties on the scripted backend *)

Ltac by_running := vm_compute; reflexivity.

Ltac answered_by_running := eexists; split; [reflexivity | by_running].

Lemma User_from_dict_flattens_witness :
  ∃ u,
    User_from_dict
      (VDict {[ "firstName" := VStr "Dana";
                "statistics" := VDict {[ "topSpeed" := VInt 413 ]} ]}) = Ok u ∧
    first_name u = VStr "Dana" ∧
    statistics_top_speed u = VInt 413 ∧
    statistics_top_sprint u = VNone.
Proof.
  destruct (User_from_dict_flattens
              {[ "firstName" := VStr "Dana";
                 "statistics" := VDict {[ "topSpeed" := VInt 413 ]} ]}
              {[ "topSpeed" := VInt 413 ]})
    as (u & Hu & _ & _ & _ & _ & Hname & _ & _ & _ & _ & _ & Hspeed & Hsprint & _);
    [by_running|].
  exists u. split; [exact Hu|].
  split; [rewrite Hname|split; [rewrite Hspeed|rewrite Hsprint]]; by_running.
Defined.

Lemma User_from_dict_fails_iff_witness :
  User_from_dict (VStr "<html>Bad Gateway</html>") = Raise AttributeError.
Proof.
  apply User_from_dict_fails_iff. intros (d & stats & Hd & _). discriminate Hd.
Defined.

Lemma Statistics_from_dict_fails_iff_witness :
  Statistics_from_dict (VDict {[ "result" := VNone ]}) = Raise AttributeError.
Proof.
  apply Statistics_from_dict_fails_iff. intros (d & inner & Hd & Hr).
  injection Hd as <-. vm_compute in Hr. discriminate Hr.
Defined.

Lemma Statistics_from_dict_outer_keys_witness :
  Statistics_from_dict
    (VDict (<[ "km_driven" := VInt 1 ]>
              {[ "result" := VDict {[ "km_driven" := VInt 63550 ]} ]}))
  = Statistics_from_dict
      (VDict {[ "result" := VDict {[ "km_driven" := VInt 63550 ]} ]}).
Proof. apply Statistics_from_dict_outer_keys. discriminate. Defined.

Lemma Auth_from_dict_other_keys_witness :
  Auth_from_dict script_jwt_decode script_fromtimestamp
    (VDict (<[ "objectId" := VStr "someone" ]> script_login_document))
  = Auth_from_dict script_jwt_decode script_fromtimestamp
      (VDict script_login_document).
Proof. apply Auth_from_dict_other_keys; discriminate. Defined.

Lemma Auth_from_dict_Ok_witness :
  Auth_from_dict script_jwt_decode script_fromtimestamp
    (VDict script_login_document) = Ok script_auth ∧
  session_token script_auth = dict_get script_login_document "sessionToken" ∧
  access_token script_auth = dict_get script_login_document "accessToken".
Proof.
  split; [by_running|].
  destruct (Auth_from_dict_Ok script_jwt_decode script_fromtimestamp
              (VDict script_login_document) script_auth)
    as (d & Hd & Hst & Hat & _); [by_running|].
  injection Hd as <-. by split.
Defined.

Lemma Auth_from_dict_decode_error_witness :
  Auth_from_dict script_jwt_decode script_fromtimestamp
    (VDict script_tokenless_document) = Raise (OtherError "DecodeError").
Proof.
  apply Auth_from_dict_decode_error; [by_running|discriminate].
Defined.

Lemma Auth_from_dict_timestamp_error_witness :
  Auth_from_dict script_jwt_decode_no_exp script_fromtimestamp
    (VDict script_login_document) = Raise (OtherError "TypeError").
Proof.
  apply (Auth_from_dict_timestamp_error script_jwt_decode_no_exp
           script_fromtimestamp script_login_document
           {[ "sub" := VStr "1EqBUC03nK" ]});
    [reflexivity|by_running|discriminate].
Defined.

Lemma _request_returns_by_content_type_witness :
  result (_request script_request "parse/login" "POST" (VDict ∅)
            script_client script_world)
  = Ok (VDict script_login_document) ∧
  result (_request script_html_request "parse/login" "POST" (VDict ∅)
            script_client script_world)
  = Ok (VStr "<html>Bad Gateway</html>").
Proof.
  split.
  - etrans.
    + apply (_request_returns_by_content_type script_request "parse/login"
               "POST" (VDict ∅) script_client script_world script_response "{}");
        [answered_by_running|reflexivity].
    + by_running.
  - etrans.
    + apply (_request_returns_by_content_type script_html_request "parse/login"
               "POST" (VDict ∅) script_client script_world script_html_response
               "<html>Bad Gateway</html>");
        [answered_by_running|reflexivity].
    + by_running.
Defined.

Lemma _request_propagates_witness :
  let r := _request script_timeout_request "parse/login" "POST" (VDict ∅)
             script_client script_world in
  result r = Raise (OtherError "TimeoutError") ∧
  _session (client r) = Some 0 ∧
  _close_session (client r) = true ∧
  sessions (world r) = [false].
Proof.
  destruct (_request_propagates script_timeout_request "parse/login" "POST"
              (VDict ∅) script_client script_world (OtherError "TimeoutError"))
    as (Hres & _ & Hsession); [left; answered_by_running|].
  split; [exact Hres|]. apply Hsession. reflexivity.
Defined.

Lemma str_contains_spec_witness :
  str_contains "application/json" "application/json; charset=utf-8" = true.
Proof.
  apply str_contains_spec. exists "", "; charset=utf-8". reflexivity.
Defined.

Lemma user_sends_witness :
  ∃ rq,
    requests (world (user script_format script_request script_client
                       script_world)) = requests script_world ++ [rq] ∧
    rq_method rq = "GET" ∧
    rq_url rq
    = "https://account.flitsmeister.app/parse/classes/_User/"
      +:+ script_format (VStr "1EqBUC03nK") ∧
    rq_json rq = VDict ∅.
Proof.
  apply (user_sends script_format script_request script_client script_world
           script_auth (VStr "1EqBUC03nK")); reflexivity.
Defined.

Lemma statistics_sends_witness :
  ∃ rq,
    requests (world (statistics script_request script_client script_world))
    = requests script_world ++ [rq] ∧
    rq_method rq = "POST" ∧
    rq_url rq
    = "https://account.flitsmeister.app/parse/functions/fetchStatistics" ∧
    rq_json rq = VDict ∅.
Proof.
  apply (statistics_sends script_request script_client script_world
           script_auth). reflexivity.
Defined.

Lemma operations_decode_json_witness :
  result (login script_jwt_decode script_fromtimestamp script_request "u" "p"
            script_client script_world)
  = Ok script_auth.
Proof.
  destruct (operations_decode_json script_jwt_decode script_fromtimestamp
              script_format script_request script_response "{}")
    as (Hlogin & _); [reflexivity|by_running|].
  etrans; [apply Hlogin; answered_by_running|by_running].
Defined.

Lemma operations_reject_text_witness :
  result (login script_jwt_decode script_fromtimestamp script_html_request
            "u" "p" script_client script_world) = Raise AttributeError ∧
  result (user script_format script_html_request script_client script_world)
  = Raise AttributeError ∧
  result (statistics script_html_request script_client script_world)
  = Raise AttributeError.
Proof.
  destruct (operations_reject_text script_jwt_decode script_fromtimestamp
              script_format script_html_request script_html_response
              "<html>Bad Gateway</html>" "<html>Bad Gateway</html>")
    as (Hlogin & Huser & Hstatistics); [reflexivity|by_running|reflexivity|].
  split; [|split].
  - apply Hlogin. answered_by_running.
  - apply Huser. answered_by_running.
  - apply Hstatistics. answered_by_running.
Defined.

Lemma request_after_close_witness :
  let self := mkFM (Some 0) true 10 None in
  let w := mkWorld [false] [] in
  let r1 := close self w in
  let r2 := _request script_request "parse/login" "POST" (VDict ∅)
              (client r1) (world r1) in
  client r2 = self ∧
  sessions (world r2) = [true] ∧
  sessions (world r2) !! 0 = Some true.
Proof.
  intros self w r1 r2.
  destruct (request_after_close script_request "parse/login" "POST" (VDict ∅)
              self w 0) as (Hclient & Hsessions & _ & Hclosed); [reflexivity|].
  split; [exact Hclient|]. split; [exact Hsessions|].
  apply Hclosed; [reflexivity|cbn; lia].
Defined.

Lemma calls_never_authenticate_witness :
  let st := run_calls script_jwt_decode script_fromtimestamp script_format
              script_request [CallLogin "u" "p"; CallLogin "u" "p"]
              (FM_init None 10 None) script_world in
  user script_format script_request st.1 st.2
  = (Raise NotauthenticatedException, st.1, st.2) ∧
  statistics script_request st.1 st.2
  = (Raise NotauthenticatedException, st.1, st.2).
Proof.
  apply (calls_never_authenticate script_jwt_decode script_fromtimestamp
           script_format script_request [CallLogin "u" "p"; CallLogin "u" "p"]
           (FM_init None 10 None) script_world).
  reflexivity.
Defined.
